(** * keras-io guides: masking and padding, writing your own callbacks

    A shallow embedding of the Python code of the two notebooks

    - [guides/ipynb/understanding_masking_and_padding_mine.ipynb]
      (padding, [CustomEmbedding.compute_mask]) and
    - the "Writing your own callbacks" notebook ([CustomCallback],
      [LossAndErrorPrintingCallback], [EarlyStoppingAtMinLoss],
      [CustomLearningRateScheduler], [lr_schedule]),

    together with the outputs the notebooks record, and a model of the
    framework's run driver that delivers the callbacks.

    Python integers are [Z] (epoch arguments of the user code) or [nat]
    (indices the driver counts from 0), Python floats are [pyfloat], a dict
    whose key order is printed is an association list, tensors of rank 2 are
    lists of rows. *)

From Stdlib Require Import List String Ascii Bool Arith ZArith QArith Lia.
From Stdlib Require Import DecimalString.
From Stdlib Require DecimalNat.
Import ListNotations.

Local Close Scope Q_scope.
Local Open Scope string_scope.
Local Open Scope list_scope.
Local Open Scope nat_scope.

(* ================================================================== *)
(** * Part I: definitions                                              *)
(* ================================================================== *)

(** ** Python floats

    The notebooks' code never computes with a float: it compares losses
    ([np.less]), copies learning rates and formats both.  A float is therefore
    kept as the extended rational it denotes; every binary64 value is one of
    these, and the order is the IEEE one ([NaN] compares false with
    everything). *)

Inductive pyfloat : Type :=
| Finite (q : Q)
| PosInf
| NegInf
| NaN.

(** [np.Inf] *)
Definition np_Inf : pyfloat := PosInf.

(** [np.less(a, b)], i.e. [a < b] on floats. *)
Definition np_less (a b : pyfloat) : bool :=
  match a, b with
  | NaN, _ | _, NaN => false
  | _, NegInf => false
  | NegInf, _ => true
  | PosInf, _ => false
  | Finite _, PosInf => true
  | Finite x, Finite y => negb (Qle_bool y x)
  end.

(** ** Rank-2 integer tensors *)

Definition tensor2 (A : Type) : Type := list (list A).

(** [shape] of a rank-2 tensor: [(rows, columns)] when every row has the same
    length. *)
Definition shape {A : Type} (t : tensor2 A) : option (nat * nat) :=
  match t with
  | [] => Some (0, 0)
  | r :: rest =>
      if forallb (fun r' => List.length r' =? List.length r) rest
      then Some (List.length t, List.length r)
      else None
  end.

(** Entry [(i, t)] of a rank-2 tensor. *)
Definition entry {A : Type} (x : tensor2 A) (i t : nat) : option A :=
  match nth_error x i with
  | Some row => nth_error row t
  | None => None
  end.

(** [tf.not_equal(inputs, v)], elementwise. *)
Definition not_equal (inputs : tensor2 Z) (v : Z) : tensor2 bool :=
  map (map (fun x => negb (x =? v)%Z)) inputs.

(** ** [CustomEmbedding] (masking notebook) *)

Record CustomEmbedding : Type := {
  input_dim : nat;
  output_dim : nat;
  mask_zero : bool
}.

(** [CustomEmbedding.compute_mask(self, inputs, mask=None)]; [None] is
    Python's [None]. *)
Definition compute_mask (self : CustomEmbedding) (inputs : tensor2 Z)
  : option (tensor2 bool) :=
  if negb (mask_zero self) then None
  else Some (not_equal inputs 0).

(** The notebook's data: [raw_inputs], the recorded [padded_inputs] and the
    masks it prints for [Embedding(mask_zero=True)] and for [Masking()]. *)
Definition raw_inputs : list (list Z) :=
  [ [711; 632; 71];
    [73; 8; 3215; 55; 927];
    [83; 91; 1; 645; 1253; 927] ]%Z.

Definition recorded_padded_inputs : tensor2 Z :=
  [ [711; 632; 71; 0; 0; 0];
    [73; 8; 3215; 55; 927; 0];
    [83; 91; 1; 645; 1253; 927] ]%Z.

Definition recorded_keras_mask : tensor2 bool :=
  [ [true; true; true; false; false; false];
    [true; true; true; true; true; false];
    [true; true; true; true; true; true] ].

(** ** [pad_sequences] *)

Inductive side : Type := pre | post.

(** [x[idx, :len(s)] = s] for [post], [x[idx, -len(s):] = s] for [pre], on a
    row [x[idx]] at least as long as [s]. *)
Definition write_row {A : Type} (padding : side) (row s : list A) : list A :=
  match padding with
  | post => s ++ skipn (List.length s) row
  | pre => firstn (List.length row - List.length s) row ++ s
  end.

(** Modelled from the spec: [tf.keras.preprocessing.sequence.pad_sequences]
    is a function of the framework, the notebook only calls it.  Following the
    glossary ("extending shorter sequences to a uniform length using filler
    values") and the notebook's text (pads with [value], 0 by default, at
    the beginning for "pre" and at the end for "post"), it allocates an array of
    [len(sequences)] rows of the longest length filled with [value] and writes
    every sequence into its row.  The longest length of no sequence at all is
    undefined ([None]). *)
Definition pad_sequences (sequences : list (list Z)) (padding : side)
  (value : Z) : option (tensor2 Z) :=
  match sequences with
  | [] => None
  | _ =>
      let maxlen := list_max (map (@List.length Z) sequences) in
      Some (map (write_row padding (repeat value maxlen)) sequences)
  end.

(** ** The callback interface

    The fourteen methods [CustomCallback] overrides, under their Python
    names. *)

Inductive hook : Type :=
| on_train_begin | on_train_end
| on_epoch_begin | on_epoch_end
| on_test_begin | on_test_end
| on_predict_begin | on_predict_end
| on_train_batch_begin | on_train_batch_end
| on_test_batch_begin | on_test_batch_end
| on_predict_batch_begin | on_predict_batch_end.

Definition hooks : list hook :=
  [ on_train_begin; on_train_end; on_epoch_begin; on_epoch_end;
    on_test_begin; on_test_end; on_predict_begin; on_predict_end;
    on_train_batch_begin; on_train_batch_end;
    on_test_batch_begin; on_test_batch_end;
    on_predict_batch_begin; on_predict_batch_end ].

(** The level of a lifecycle point, as the notebook groups the methods:
    global, batch-level, epoch-level. *)
Inductive level : Type := run_level | batch_level | epoch_level.

Definition level_of (h : hook) : level :=
  match h with
  | on_train_begin | on_train_end | on_test_begin | on_test_end
  | on_predict_begin | on_predict_end => run_level
  | on_epoch_begin | on_epoch_end => epoch_level
  | _ => batch_level
  end.

(** The positional parameters of each method after [self]: [(epoch, logs)],
    [(batch, logs)] or [(logs)]. *)
Definition parameters (h : hook) : list string :=
  match h with
  | on_epoch_begin | on_epoch_end => ["epoch"; "logs"]
  | on_train_batch_begin | on_train_batch_end
  | on_test_batch_begin | on_test_batch_end
  | on_predict_batch_begin | on_predict_batch_end => ["batch"; "logs"]
  | _ => ["logs"]
  end.

(** The [logs] dict: metric name to value, in insertion order (the order
    [list(logs.keys())] prints). *)
Definition Logs : Type := list (string * pyfloat).

Definition keys (logs : Logs) : list string := map fst logs.

(** [logs.get(k)] *)
Fixpoint get (logs : Logs) (k : string) : option pyfloat :=
  match logs with
  | [] => None
  | (k', v) :: rest => if String.eqb k' k then Some v else get rest k
  end.

Inductive mode : Type := Train | Test | Predict.

(** One invocation of a callback method with its arguments. *)
Inductive call : Type :=
| RunBegin (m : mode) (logs : Logs)
| RunEnd (m : mode) (logs : Logs)
| EpochBegin (epoch : nat) (logs : Logs)
| EpochEnd (epoch : nat) (logs : Logs)
| BatchBegin (m : mode) (batch : nat) (logs : Logs)
| BatchEnd (m : mode) (batch : nat) (logs : Logs).

Definition method (c : call) : hook :=
  match c with
  | RunBegin Train _ => on_train_begin
  | RunBegin Test _ => on_test_begin
  | RunBegin Predict _ => on_predict_begin
  | RunEnd Train _ => on_train_end
  | RunEnd Test _ => on_test_end
  | RunEnd Predict _ => on_predict_end
  | EpochBegin _ _ => on_epoch_begin
  | EpochEnd _ _ => on_epoch_end
  | BatchBegin Train _ _ => on_train_batch_begin
  | BatchBegin Test _ _ => on_test_batch_begin
  | BatchBegin Predict _ _ => on_predict_batch_begin
  | BatchEnd Train _ _ => on_train_batch_end
  | BatchEnd Test _ _ => on_test_batch_end
  | BatchEnd Predict _ _ => on_predict_batch_end
  end.

(** The epoch or batch number an invocation carries. *)
Definition index (c : call) : option nat :=
  match c with
  | RunBegin _ _ | RunEnd _ _ => None
  | EpochBegin i _ | EpochEnd i _ => Some i
  | BatchBegin _ i _ | BatchEnd _ i _ => Some i
  end.

Definition snapshot (c : call) : Logs :=
  match c with
  | RunBegin _ l | RunEnd _ l => l
  | EpochBegin _ l | EpochEnd _ l => l
  | BatchBegin _ _ l | BatchEnd _ _ l => l
  end.

Definition is_begin (c : call) : bool :=
  match c with
  | RunBegin _ _ | EpochBegin _ _ | BatchBegin _ _ _ => true
  | _ => false
  end.

Definition is_epoch_event (c : call) : bool :=
  match c with
  | EpochBegin _ _ | EpochEnd _ _ => true
  | _ => false
  end.

Definition is_epoch_begin (c : call) : bool :=
  match c with
  | EpochBegin _ _ => true
  | _ => false
  end.

(** ** Printing *)

(** Standard output, one entry per printed line. *)
Definition stdout : Type := list string.

(** [str(n)] of a natural number. *)
Definition str_nat (n : nat) : string :=
  NilEmpty.string_of_uint (Nat.to_uint n).

(** [str(keys)] of a list of strings: ['loss', 'mean_absolute_error']. *)
Definition str_list (l : list string) : string :=
  ("[" ++ String.concat ", " (map (fun k => "'" ++ k ++ "'")%string l) ++ "]")%string.

(** ** [CustomCallback]: every method prints the keys of [logs] *)

Definition CustomCallback_line (c : call) : string :=
  let ks := str_list (keys (snapshot c)) in
  (match c with
  | RunBegin Train _ => "Starting training; got log keys: " ++ ks
  | RunEnd Train _ => "Stop training; got log keys: " ++ ks
  | EpochBegin epoch _ =>
      "Start epoch " ++ str_nat epoch ++ " of training; got log keys: " ++ ks
  | EpochEnd epoch _ =>
      "End epoch " ++ str_nat epoch ++ " of training; got log keys: " ++ ks
  | RunBegin Test _ => "Start testing; got log keys: " ++ ks
  | RunEnd Test _ => "Stop testing; got log keys: " ++ ks
  | RunBegin Predict _ => "Start predicting; got log keys: " ++ ks
  | RunEnd Predict _ => "Stop predicting; got log keys: " ++ ks
  | BatchBegin Train batch _ =>
      "...Training: start of batch " ++ str_nat batch ++ "; got log keys: " ++ ks
  | BatchEnd Train batch _ =>
      "...Training: end of batch " ++ str_nat batch ++ "; got log keys: " ++ ks
  | BatchBegin Test batch _ =>
      "...Evaluating: start of batch " ++ str_nat batch ++ "; got log keys: " ++ ks
  | BatchEnd Test batch _ =>
      "...Evaluating: end of batch " ++ str_nat batch ++ "; got log keys: " ++ ks
  | BatchBegin Predict batch _ =>
      "...Predicting: start of batch " ++ str_nat batch ++ "; got log keys: " ++ ks
  | BatchEnd Predict batch _ =>
      "...Predicting: end of batch " ++ str_nat batch ++ "; got log keys: " ++ ks
  end)%string.

(** ** Learning-rate schedule *)

(** [(epoch to start, learning rate)] tuples. *)
Definition LR_SCHEDULE : list (Z * pyfloat) :=
  [ (3%Z, Finite 0.05%Q);
    (6%Z, Finite 0.01%Q);
    (9%Z, Finite 0.005%Q);
    (12%Z, Finite 0.001%Q) ].

(** [lr_schedule(epoch, lr)]: outside the scheduled range the rate is kept;
    inside, the first tuple whose epoch equals [epoch] gives the rate. *)
Definition lr_schedule (epoch : Z) (lr : pyfloat) : pyfloat :=
  if (epoch <? fst (nth 0 LR_SCHEDULE (0%Z, lr)))%Z
     || (epoch >? fst (last LR_SCHEDULE (0%Z, lr)))%Z
  then lr
  else
    match find (fun p => (epoch =? fst p)%Z) LR_SCHEDULE with
    | Some p => snd p
    | None => lr
    end.

(** ** Formatting numbers *)

Definition str_N (n : N) : string := NilEmpty.string_of_uint (N.to_uint n).

(** [s] padded on the left with [c] up to [width] characters. *)
Definition pad_left (c : ascii) (width : nat) (s : string) : string :=
  (string_of_list_ascii (repeat c (width - String.length s)) ++ s)%string.

(** ["%05d" % n] and the like, for a natural number. *)
Definition format_d (width : nat) (n : nat) : string :=
  pad_left "0" width (str_nat n).

(** [q] scaled by [10^prec] and rounded to the nearest integer, ties to
    even. *)
Definition round_scaled (prec : nat) (q : Q) : Z :=
  let n := (Z.abs (Qnum q) * 10 ^ Z.of_nat prec)%Z in
  let d := Zpos (Qden q) in
  let f := (n / d)%Z in
  let r := (n mod d)%Z in
  match (2 * r ?= d)%Z with
  | Lt => f
  | Gt => (f + 1)%Z
  | Eq => if Z.even f then f else (f + 1)%Z
  end.

(** ["{:W.Pf}".format(x)] and ["%W.Pf" % x]: fixed-point notation with
    [prec] digits after the point, right-aligned in [width] characters. *)
Definition format_f (width prec : nat) (x : pyfloat) : string :=
  pad_left " " width
    match x with
    | Finite q =>
        let n := round_scaled prec q in
        let scale := (10 ^ Z.of_nat prec)%Z in
        ((if (Qnum q <? 0)%Z then "-" else EmptyString)
         ++ str_N (Z.to_N (n / scale))
         ++ (if Nat.eqb prec 0 then EmptyString
             else "." ++ pad_left "0" prec (str_N (Z.to_N (n mod scale)))))%string
    | PosInf => "inf"
    | NegInf => "-inf"
    | NaN => "nan"
    end.

(** ** Errors

    A Python exception ends the method that raises it.  [Raise] is a [raise]
    statement written in the notebook; [FrameworkError] is an exception
    coming out of a call into the framework, numpy or the Python runtime
    (the text names the call). *)

Inductive exception : Type :=
| ValueError (message : string).

Inductive error : Type :=
| Raise (e : exception)
| FrameworkError (call_site : string).

Definition result (A : Type) : Type := (error + A)%type.

Definition raised_by_notebook {A : Type} (r : result A) : bool :=
  match r with
  | inl (Raise _) => true
  | _ => false
  end.

(** ** The model a callback reaches through [self.model], and stdout *)

Record Optimizer : Type := {
  (** [optimizer.learning_rate]; the framework exposes the same
      hyperparameter under the name [lr] (the recorded run reads back through
      [learning_rate] what the scheduler wrote through [lr]).  [None]: the
      optimizer has no such attribute. *)
  learning_rate : option pyfloat
}.

Section World.
Context {Weights : Type}.

Record Model : Type := {
  stop_training : bool;
  weights : Weights;
  optimizer : Optimizer
}.

Record World : Type := {
  model : Model;
  printed : stdout
}.

(** [print(line)] *)
Definition print (line : string) (w : World) : World :=
  {| model := model w; printed := printed w ++ [line] |}.

(** [self.model.stop_training = b] *)
Definition set_stop_training (b : bool) (w : World) : World :=
  {| model := {| stop_training := b;
                 weights := weights (model w);
                 optimizer := optimizer (model w) |};
     printed := printed w |}.

(** [self.model.get_weights()] *)
Definition get_weights (w : World) : Weights := weights (model w).

(** The weights [ws] stored into the model. *)
Definition with_weights (ws : Weights) (w : World) : World :=
  {| model := {| stop_training := stop_training (model w);
                 weights := ws;
                 optimizer := optimizer (model w) |};
     printed := printed w |}.

(** [self.model.set_weights(ws)]; the framework rejects [None]. *)
Definition set_weights (ws : option Weights) (w : World) : result World :=
  match ws with
  | Some ws => inr (with_weights ws w)
  | None => inl (FrameworkError "model.set_weights(None)")
  end.

(** [hasattr(self.model.optimizer, "lr")] *)
Definition hasattr_lr (w : World) : bool :=
  match learning_rate (optimizer (model w)) with
  | Some _ => true
  | None => false
  end.

(** [tf.keras.backend.set_value(self.model.optimizer.lr, v)] *)
Definition set_lr (v : pyfloat) (w : World) : World :=
  {| model := {| stop_training := stop_training (model w);
                 weights := weights (model w);
                 optimizer := {| learning_rate := Some v |} |};
     printed := printed w |}.
End World.

Arguments Model : clear implicits.
Arguments World : clear implicits.

(** [CustomCallback]: whichever method is called prints its line. *)
Definition CustomCallback {Weights : Type} (c : call) (w : World Weights)
  : World Weights :=
  print (CustomCallback_line c) w.

(** ** [LossAndErrorPrintingCallback] *)

Module LossAndErrorPrintingCallback.
Section Methods.
Context {Weights : Type}.

(** [logs["loss"]]: a missing key is a [KeyError] of the runtime. *)
Definition item (logs : Logs) (k : string) : result pyfloat :=
  match get logs k with
  | Some v => inr v
  | None => inl (FrameworkError "logs[key]")
  end.

Definition on_train_batch_end (batch : nat) (logs : Logs)
  (w : World Weights) : result (World Weights) :=
  match item logs "loss" with
  | inl e => inl e
  | inr loss =>
      inr (print ("Up to batch " ++ str_nat batch
                  ++ ", the average loss is " ++ format_f 7 2 loss ++ ".")%string w)
  end.

Definition on_test_batch_end (batch : nat) (logs : Logs)
  (w : World Weights) : result (World Weights) :=
  match item logs "loss" with
  | inl e => inl e
  | inr loss =>
      inr (print ("Up to batch " ++ str_nat batch
                  ++ ", the average loss is " ++ format_f 7 2 loss ++ ".")%string w)
  end.

Definition on_epoch_end (epoch : nat) (logs : Logs)
  (w : World Weights) : result (World Weights) :=
  match item logs "loss" with
  | inl e => inl e
  | inr loss =>
      match item logs "mean_absolute_error" with
      | inl e => inl e
      | inr mae =>
          inr (print ("The average loss for epoch " ++ str_nat epoch
                      ++ " is " ++ format_f 7 2 loss
                      ++ " and mean absolute error is " ++ format_f 7 2 mae
                      ++ ".")%string w)
      end
  end.

(** The method a call reaches; the methods the class does not override are
    the base class's, which do nothing. *)
Definition handle (c : call) (w : World Weights) : result (World Weights) :=
  match c with
  | BatchEnd Train batch logs => on_train_batch_end batch logs w
  | BatchEnd Test batch logs => on_test_batch_end batch logs w
  | EpochEnd epoch logs => on_epoch_end epoch logs w
  | _ => inr w
  end.
End Methods.
End LossAndErrorPrintingCallback.

(** ** [EarlyStoppingAtMinLoss] *)

Module EarlyStoppingAtMinLoss.
Section Methods.
Context {Weights : Type}.

(** The attributes of an instance.  [wait], [stopped_epoch] and [best] are
    created by [on_train_begin], which every training run calls first. *)
Record self : Type := {
  patience : Z;
  best_weights : option Weights;
  wait : Z;
  stopped_epoch : nat;
  best : pyfloat
}.

(** [__init__(self, patience=0)]; the three attributes [on_train_begin]
    creates are shown with the values it gives them. *)
Definition init (patience : Z) : self :=
  {| patience := patience;
     best_weights := None;
     wait := 0;
     stopped_epoch := 0;
     best := np_Inf |}.

Definition on_train_begin (s : self) (logs : Logs) : self :=
  {| patience := patience s;
     best_weights := best_weights s;
     wait := 0;
     stopped_epoch := 0;
     best := np_Inf |}.

Definition on_epoch_end (s : self) (epoch : nat) (logs : Logs)
  (w : World Weights) : result (self * World Weights) :=
  match get logs "loss" with
  | None => inl (FrameworkError "np.less(None, self.best)")
  | Some current =>
      if np_less current (best s) then
        inr ({| patience := patience s;
                best_weights := Some (get_weights w);
                wait := 0;
                stopped_epoch := stopped_epoch s;
                best := current |}, w)
      else
        let wait' := (wait s + 1)%Z in
        if (wait' >=? patience s)%Z then
          let s' := {| patience := patience s;
                       best_weights := best_weights s;
                       wait := wait';
                       stopped_epoch := epoch;
                       best := best s |} in
          let w1 := set_stop_training true w in
          let w2 := print "Restoring model weights from the end of the best epoch." w1 in
          match set_weights (best_weights s) w2 with
          | inl e => inl e
          | inr w3 => inr (s', w3)
          end
        else
          inr ({| patience := patience s;
                  best_weights := best_weights s;
                  wait := wait';
                  stopped_epoch := stopped_epoch s;
                  best := best s |}, w)
  end.

Definition on_train_end (s : self) (logs : Logs) (w : World Weights)
  : World Weights :=
  if 0 <? stopped_epoch s then
    print ("Epoch " ++ format_d 5 (stopped_epoch s + 1) ++ ": early stopping")%string w
  else w.

Definition handle (c : call) (sw : self * World Weights)
  : result (self * World Weights) :=
  let (s, w) := sw in
  match c with
  | RunBegin Train logs => inr (on_train_begin s logs, w)
  | EpochEnd epoch logs => on_epoch_end s epoch logs w
  | RunEnd Train logs => inr (s, on_train_end s logs w)
  | _ => inr (s, w)
  end.

(** What one epoch hands to [on_epoch_end]: the epoch number, the loss and
    the other metrics of [logs], and the weights training has left in the
    model. *)
Record epoch_record : Type := {
  ep_index : nat;
  ep_loss : pyfloat;
  ep_metrics : Logs;
  ep_weights : Weights
}.

Definition ep_logs (x : epoch_record) : Logs :=
  ("loss", ep_loss x) :: ep_metrics x.

(** The callback over the successive epoch ends of a run. *)
Fixpoint epoch_ends (s : self) (w : World Weights) (xs : list epoch_record)
  : result (self * World Weights) :=
  match xs with
  | [] => inr (s, w)
  | x :: rest =>
      match on_epoch_end s (ep_index x) (ep_logs x) (with_weights (ep_weights x) w) with
      | inl e => inl e
      | inr (s', w') => epoch_ends s' w' rest
      end
  end.

End Methods.
Arguments self : clear implicits.
Arguments epoch_record : clear implicits.
End EarlyStoppingAtMinLoss.

(** ** [CustomLearningRateScheduler] *)

Module CustomLearningRateScheduler.
Section Methods.
Context {Weights : Type}.

Record self : Type := {
  schedule : Z -> pyfloat -> pyfloat
}.

Definition init (schedule : Z -> pyfloat -> pyfloat) : self :=
  {| schedule := schedule |}.

Definition lr_message : string :=
  ("Optimizer must have a " ++ String "034" "lr" ++ String "034" " attribute.")%string.

Definition on_epoch_begin (s : self) (epoch : nat) (logs : Logs)
  (w : World Weights) : result (World Weights) :=
  if negb (hasattr_lr w) then inl (Raise (ValueError lr_message))
  else
    match learning_rate (optimizer (model w)) with
    | None => inl (FrameworkError "optimizer.learning_rate")
    | Some lr =>
        let scheduled_lr := schedule s (Z.of_nat epoch) lr in
        let w1 := set_lr scheduled_lr w in
        inr (print ("Epoch " ++ format_d 5 epoch ++ ": Learning rate is "
                    ++ format_f 6 4 scheduled_lr ++ ".")%string
               (print EmptyString w1))
    end.

Definition handle (s : self) (c : call) (w : World Weights)
  : result (World Weights) :=
  match c with
  | EpochBegin epoch logs => on_epoch_begin s epoch logs w
  | _ => inr w
  end.
End Methods.
End CustomLearningRateScheduler.

(** ** The run driver ([fit], [evaluate], [predict])

    The notebooks call [model.fit], [model.evaluate] and [model.predict] of the
    framework; their code is not part of the repository.  The model below
    follows section 4.1 of the specification (observers invoked at run, epoch
    and batch boundaries with an index and a metrics snapshot, the stop flag
    checked after each batch and each epoch) and reproduces, line by line, the
    outputs the notebook records. *)

(** [d[k] = v] on an insertion-ordered dict: an existing key keeps its
    place, a new one goes last. *)
Fixpoint dict_set (d : Logs) (k : string) (v : pyfloat) : Logs :=
  match d with
  | [] => [(k, v)]
  | (k', v') :: rest =>
      if String.eqb k' k then (k', v) :: rest else (k', v') :: dict_set rest k v
  end.

(** [d.update(new)] *)
Definition dict_update (d new : Logs) : Logs :=
  fold_left (fun d kv => dict_set d (fst kv) (snd kv)) new d.

(** The validation metrics under their [val_] names. *)
Definition val_logs (logs : Logs) : Logs :=
  map (fun kv => (("val_" ++ fst kv)%string, snd kv)) logs.

(** A delivered lifecycle event: the call every registered observer received
    (in registration order, see [every_observer_receives_the_trace]), and the
    model's stop flag once the last of them has returned, which is what the
    driver reads. *)
Record event : Type := {
  what : call;
  stop_after : bool
}.

(** The calls of a trace. *)
Abbreviation calls := (map what).

(** Modelled from the spec: the framework's training, evaluation and
    prediction steps, which are outside the repository.  A training or test
    step yields the loss and the values of the compiled metrics, a prediction
    step the batch outputs (one value stands for the tensor). *)
Record Framework (W : Type) : Type := {
  metrics_names : list string;
  train_step : nat -> nat -> W -> W * (pyfloat * list pyfloat);
  test_step : nat -> W -> W * (pyfloat * list pyfloat);
  predict_step : nat -> W -> W * pyfloat
}.

Arguments metrics_names {W} _.
Arguments train_step {W} _ _ _ _.
Arguments test_step {W} _ _ _.
Arguments predict_step {W} _ _ _.

Module Driver.
Section Notifier.
Context {W : Type}.

(** [model.stop_training] in the state [W] the observers share. *)
Variable stop_flag : W -> bool.
Variable framework : Framework W.

(** The registered observers, in registration order. *)
Variable callbacks : list (call -> W -> W).

(** Modelled from the spec: one lifecycle point.  Every registered observer
    is invoked with the same call, in order. *)
Definition notify (c : call) (w : W) : W * list event :=
  let w' := fold_left (fun w cb => cb c w) callbacks w in
  (w', [{| what := c; stop_after := stop_flag w' |}]).

(** Modelled from the spec: the world once every observer has handled [c]. *)
Definition delivered (c : call) (w : W) : W := fst (notify c w).

(** Modelled from the spec: the metrics snapshot a training or test batch
    produces on completion, the loss first. *)
Definition metric_logs (r : pyfloat * list pyfloat) : Logs :=
  ("loss", fst r) :: combine (metrics_names framework) (snd r).

(** Modelled from the spec: one batch of a run in mode [m]. *)
Definition step (m : mode) (epoch batch : nat) (w : W) : W * Logs :=
  match m with
  | Train =>
      let (w', r) := train_step framework epoch batch w in (w', metric_logs r)
  | Test =>
      let (w', r) := test_step framework batch w in (w', metric_logs r)
  | Predict =>
      let (w', o) := predict_step framework batch w in (w', [("outputs", o)])
  end.

(** Modelled from the spec: only a training run looks at the stop flag. *)
Definition checks_stop (m : mode) : bool :=
  match m with
  | Train => true
  | _ => false
  end.

(** Modelled from the spec: [n] batches from number [batch] on.  Each is
    announced with an empty snapshot and closed with the snapshot it
    produced; after a training batch the stop flag is checked.  Returns the
    snapshot of the last batch run ([logs] if none). *)
Fixpoint batches (m : mode) (epoch n batch : nat) (logs : Logs) (w : W)
  : W * Logs * list event :=
  match n with
  | O => (w, logs, [])
  | S n' =>
      let (w1, e1) := notify (BatchBegin m batch []) w in
      let (w2, logs') := step m epoch batch w1 in
      let (w3, e2) := notify (BatchEnd m batch logs') w2 in
      if checks_stop m && stop_flag w3 then (w3, logs', e1 ++ e2)
      else
        let '(w4, logs'', e3) := batches m epoch n' (S batch) logs' w3 in
        (w4, logs'', e1 ++ e2 ++ e3)
  end.

(** Modelled from the spec: an evaluation run of [steps] batches. *)
Definition evaluate (steps : nat) (w : W) : W * Logs * list event :=
  let (w1, e1) := notify (RunBegin Test []) w in
  let '(w2, logs, e2) := batches Test 0 steps 0 [] w1 in
  let (w3, e3) := notify (RunEnd Test logs) w2 in
  (w3, logs, e1 ++ e2 ++ e3).

(** Modelled from the spec: a prediction run of [steps] batches; its run-end
    carries no metrics. *)
Definition predict (steps : nat) (w : W) : W * list event :=
  let (w1, e1) := notify (RunBegin Predict []) w in
  let '(w2, _, e2) := batches Predict 0 steps 0 [] w1 in
  let (w3, e3) := notify (RunEnd Predict []) w2 in
  (w3, e1 ++ e2 ++ e3).

(** Modelled from the spec: the validation of an epoch.  With validation data
    an evaluation run of [vsteps] batches follows the training batches and
    its metrics join the epoch's snapshot under their [val_] names.  Returns
    the epoch's snapshot. *)
Definition validation_part (validation : option nat) (logs' : Logs) (w2 : W)
  : W * Logs * list event :=
  match validation with
  | None => (w2, logs', [])
  | Some vsteps =>
      (fst (fst (evaluate vsteps w2)),
       dict_update logs' (val_logs (snd (fst (evaluate vsteps w2)))),
       snd (evaluate vsteps w2))
  end.

(** Modelled from the spec: one epoch of training: the epoch-begin, the
    training batches, the validation if any, the epoch-end with the epoch's
    snapshot.  Returns the last batch snapshot and the epoch's snapshot. *)
Definition epoch_body (validation : option nat) (steps epoch : nat)
  (logs : Logs) (w : W) : W * Logs * Logs * list event :=
  let (w1, e1) := notify (EpochBegin epoch []) w in
  let '(w2, logs', e2) := batches Train epoch steps 0 logs w1 in
  let '(w3, epoch_logs, e3) := validation_part validation logs' w2 in
  let (w4, e4) := notify (EpochEnd epoch epoch_logs) w3 in
  (w4, logs', epoch_logs, e1 ++ e2 ++ e3 ++ e4).

(** Modelled from the spec: [n] epochs from number [epoch] on; the stop flag
    is checked after each. *)
Fixpoint epochs_loop (validation : option nat) (steps n epoch : nat)
  (logs training_logs : Logs) (w : W) : W * Logs * list event :=
  match n with
  | O => (w, training_logs, [])
  | S n' =>
      let '(w1, logs', epoch_logs, e1) :=
        epoch_body validation steps epoch logs w in
      if stop_flag w1 then (w1, epoch_logs, e1)
      else
        let '(w2, training_logs', e2) :=
          epochs_loop validation steps n' (S epoch) logs' epoch_logs w1 in
        (w2, training_logs', e1 ++ e2)
  end.

(** Modelled from the spec: a training run of at most [epochs] epochs of
    [steps] batches. *)
Definition fit (epochs steps : nat) (validation : option nat) (w : W)
  : W * list event :=
  let (w1, e1) := notify (RunBegin Train []) w in
  let '(w2, training_logs, e2) :=
    epochs_loop validation steps epochs 0 [] [] w1 in
  let (w3, e3) := notify (RunEnd Train training_logs) w2 in
  (w3, e1 ++ e2 ++ e3).
End Notifier.
End Driver.

Import Driver.

(** ** The invocations behind a trace

    To see which observer received which call, every observer can be made to
    note the calls it receives in a journal kept beside the shared state. *)

Definition journal : Type := list (nat * call).

(** Observer number [k], noting each call it receives. *)
Definition recording {W : Type} (k : nat) (cb : call -> W -> W) (c : call)
  (wj : W * journal) : W * journal :=
  (cb c (fst wj), snd wj ++ [(k, c)]).

(** The observers numbered from [k] on, in registration order. *)
Fixpoint recording_from {W : Type} (k : nat) (cbs : list (call -> W -> W))
  : list (call -> W * journal -> W * journal) :=
  match cbs with
  | [] => []
  | cb :: rest => recording k cb :: recording_from (S k) rest
  end.

(** The framework's steps, which leave the journal alone. *)
Definition beside_journal {W : Type} (fw : Framework W)
  : Framework (W * journal) :=
  {| metrics_names := metrics_names fw;
     train_step := fun e b wj =>
       ((fst (train_step fw e b (fst wj)), snd wj),
        snd (train_step fw e b (fst wj)));
     test_step := fun b wj =>
       ((fst (test_step fw b (fst wj)), snd wj), snd (test_step fw b (fst wj)));
     predict_step := fun b wj =>
       ((fst (predict_step fw b (fst wj)), snd wj),
        snd (predict_step fw b (fst wj))) |}.

(** The invocations of [n] observers that a trace of delivered calls stands
    for: each call reaches observer 0, then 1, ... *)
Definition invocations (n : nat) (tr : list call) : journal :=
  flat_map (fun c => map (fun k => (k, c)) (seq 0 n)) tr.

(** The calls observer [k] received. *)
Definition received (k : nat) (j : journal) : list call :=
  map snd (filter (fun p => fst p =? k) j).

(** ** The lifecycle pattern as an automaton

    [run-begin -> (epoch-begin -> (batch-begin -> batch-end)* -> epoch-end)*
    -> run-end] for a training run; an evaluation or prediction run has no
    epochs and its batches lie directly between run-begin and run-end.  With
    [nested = true] an epoch may, after its training batches, hold one
    complete evaluation run before its epoch-end. *)

Inductive phase : Type :=
| Idle
| Running
| InEpoch (epoch : nat)
| InBatch (epoch : option nat) (batch : nat)
| Validating (epoch : nat)
| ValidatingBatch (epoch batch : nat)
| Validated (epoch : nat)
| Finished.

Definition mode_eqb (a b : mode) : bool :=
  match a, b with
  | Train, Train | Test, Test | Predict, Predict => true
  | _, _ => false
  end.

Definition next (nested : bool) (m : mode) (p : phase) (c : call)
  : option phase :=
  match p, c with
  | Idle, RunBegin m' _ => if mode_eqb m m' then Some Running else None
  | Running, RunEnd m' _ => if mode_eqb m m' then Some Finished else None
  | Running, EpochBegin e _ =>
      if mode_eqb m Train then Some (InEpoch e) else None
  | Running, BatchBegin m' b _ =>
      if negb (mode_eqb m Train) && mode_eqb m m' then Some (InBatch None b)
      else None
  | InBatch None b, BatchEnd m' b' _ =>
      if mode_eqb m m' && (b =? b') then Some Running else None
  | InEpoch e, BatchBegin Train b _ => Some (InBatch (Some e) b)
  | InBatch (Some e) b, BatchEnd Train b' _ =>
      if b =? b' then Some (InEpoch e) else None
  | InEpoch e, EpochEnd e' _ => if e =? e' then Some Running else None
  | InEpoch e, RunBegin Test _ => if nested then Some (Validating e) else None
  | Validating e, BatchBegin Test b _ => Some (ValidatingBatch e b)
  | ValidatingBatch e b, BatchEnd Test b' _ =>
      if b =? b' then Some (Validating e) else None
  | Validating e, RunEnd Test _ => Some (Validated e)
  | Validated e, EpochEnd e' _ => if e =? e' then Some Running else None
  | _, _ => None
  end.

Fixpoint run_from (nested : bool) (m : mode) (p : phase) (tr : list call)
  : option phase :=
  match tr with
  | [] => Some p
  | c :: rest =>
      match next nested m p c with
      | Some p' => run_from nested m p' rest
      | None => None
      end
  end.

Definition accepts (nested : bool) (m : mode) (tr : list call) : bool :=
  match run_from nested m Idle tr with
  | Some Finished => true
  | _ => false
  end.

(** The pattern as the specification words it, and with the nested
    validation run. *)
Definition nominal_pattern : mode -> list call -> bool := accepts false.
Definition pattern_with_validation : mode -> list call -> bool := accepts true.

(** ** What a run may deliver *)

Inductive run : Type :=
| Fit (epochs steps : nat) (validation : option nat)
| Evaluate (steps : nat)
| Prediction (steps : nat).

(** Whether run [r] holds a run of mode [m]: itself, or the validation run
    nested in the epochs of a [fit] with validation data. *)
Definition holds_run (r : run) (m : mode) : bool :=
  match m with
  | Train => match r with Fit _ _ _ => true | _ => false end
  | Test =>
      match r with
      | Fit (S _) _ (Some _) => true
      | Evaluate _ => true
      | _ => false
      end
  | Predict => match r with Prediction _ => true | _ => false end
  end.

(** The number of batches of mode [m] in each pass of run [r]. *)
Definition batches_per_pass (r : run) (m : mode) : nat :=
  match m with
  | Train => match r with Fit (S _) steps _ => steps | _ => 0 end
  | Test =>
      match r with
      | Fit (S _) _ (Some vsteps) => vsteps
      | Evaluate steps => steps
      | _ => 0
      end
  | Predict => match r with Prediction steps => steps | _ => 0 end
  end.

(** The calls run [r] may deliver, with what their snapshot holds. *)
Definition may_deliver (r : run) (c : call) : Prop :=
  match c with
  | RunBegin m l => holds_run r m = true /\ l = []
  | RunEnd Predict l => holds_run r Predict = true /\ l = []
  | RunEnd m l =>
      holds_run r m = true /\ (0 < batches_per_pass r m -> l <> [])
  | EpochBegin _ l => (exists e s v, r = Fit (S e) s v) /\ l = []
  | EpochEnd _ l =>
      (exists e s v, r = Fit (S e) s v)
      /\ (0 < batches_per_pass r Train -> l <> [])
  | BatchBegin m _ l => 0 < batches_per_pass r m /\ l = []
  | BatchEnd m _ l => 0 < batches_per_pass r m /\ l <> []
  end.

(** The calls of a batch loop: a begin with an empty snapshot, or an end with
    a populated one. *)
Definition batch_call (m : mode) (c : call) : Prop :=
  match c with
  | BatchBegin m' _ l => m' = m /\ l = []
  | BatchEnd m' _ l => m' = m /\ l <> []
  | _ => False
  end.

(** ** Metrics snapshots along a trace *)

(** The run an invocation belongs to; epochs belong to training. *)
Definition run_of (c : call) : mode :=
  match c with
  | RunBegin m _ | RunEnd m _ => m
  | BatchBegin m _ _ | BatchEnd m _ _ => m
  | EpochBegin _ _ | EpochEnd _ _ => Train
  end.

(** A batch of a run of mode [m] has completed within [tr]. *)
Definition completed (m : mode) (tr : list call) : bool :=
  existsb (fun c => match c with
                    | BatchEnd m' _ _ => mode_eqb m m'
                    | _ => false
                    end) tr.

(** The snapshot rule for call [c] delivered after the calls [before]: empty
    at a begin, populated at an end once a batch of that run has completed.
    With [predict_end_empty] the end of a prediction run is the exception:
    its snapshot is empty. *)
Definition snapshot_rule (predict_end_empty : bool) (before : list call)
  (c : call) : Prop :=
  if is_begin c then snapshot c = []
  else
    match c with
    | RunEnd Predict l =>
        if predict_end_empty then l = []
        else completed Predict (before ++ [c]) = true -> l <> []
    | _ => completed (run_of c) (before ++ [c]) = true -> snapshot c <> []
    end.

Definition snapshots_follow (predict_end_empty : bool) (tr : list call) : Prop :=
  forall before c after,
    tr = before ++ c :: after -> snapshot_rule predict_end_empty before c.

(** ** The stop flag along a trace *)

Definition no_epoch_begin (ev : event) : Prop := is_epoch_begin (what ev) = false.




(** No epoch begins after an event that leaves the flag set. *)
Fixpoint quiet (tr : list event) : Prop :=
  match tr with
  | [] => True
  | e :: rest => (stop_after e = true -> Forall no_epoch_begin rest) /\ quiet rest
  end.

(** ** The outputs the callbacks notebook records *)

(** The basic example: [fit], then [evaluate], then [predict], each with a
    [CustomCallback] registered. *)
Definition recorded_basic_example : stdout :=
  [ "Starting training; got log keys: []";
    "Start epoch 0 of training; got log keys: []";
    "...Training: start of batch 0; got log keys: []";
    "...Training: end of batch 0; got log keys: ['loss', 'mean_absolute_error']";
    "...Training: start of batch 1; got log keys: []";
    "...Training: end of batch 1; got log keys: ['loss', 'mean_absolute_error']";
    "...Training: start of batch 2; got log keys: []";
    "...Training: end of batch 2; got log keys: ['loss', 'mean_absolute_error']";
    "...Training: start of batch 3; got log keys: []";
    "...Training: end of batch 3; got log keys: ['loss', 'mean_absolute_error']";
    "Start testing; got log keys: []";
    "...Evaluating: start of batch 0; got log keys: []";
    "...Evaluating: end of batch 0; got log keys: ['loss', 'mean_absolute_error']";
    "...Evaluating: start of batch 1; got log keys: []";
    "...Evaluating: end of batch 1; got log keys: ['loss', 'mean_absolute_error']";
    "...Evaluating: start of batch 2; got log keys: []";
    "...Evaluating: end of batch 2; got log keys: ['loss', 'mean_absolute_error']";
    "...Evaluating: start of batch 3; got log keys: []";
    "...Evaluating: end of batch 3; got log keys: ['loss', 'mean_absolute_error']";
    "Stop testing; got log keys: ['loss', 'mean_absolute_error']";
    "End epoch 0 of training; got log keys: ['loss', 'mean_absolute_error', 'val_loss', 'val_mean_absolute_error']";
    "Stop training; got log keys: ['loss', 'mean_absolute_error', 'val_loss', 'val_mean_absolute_error']";
    "Start testing; got log keys: []";
    "...Evaluating: start of batch 0; got log keys: []";
    "...Evaluating: end of batch 0; got log keys: ['loss', 'mean_absolute_error']";
    "...Evaluating: start of batch 1; got log keys: []";
    "...Evaluating: end of batch 1; got log keys: ['loss', 'mean_absolute_error']";
    "...Evaluating: start of batch 2; got log keys: []";
    "...Evaluating: end of batch 2; got log keys: ['loss', 'mean_absolute_error']";
    "...Evaluating: start of batch 3; got log keys: []";
    "...Evaluating: end of batch 3; got log keys: ['loss', 'mean_absolute_error']";
    "...Evaluating: start of batch 4; got log keys: []";
    "...Evaluating: end of batch 4; got log keys: ['loss', 'mean_absolute_error']";
    "...Evaluating: start of batch 5; got log keys: []";
    "...Evaluating: end of batch 5; got log keys: ['loss', 'mean_absolute_error']";
    "...Evaluating: start of batch 6; got log keys: []";
    "...Evaluating: end of batch 6; got log keys: ['loss', 'mean_absolute_error']";
    "...Evaluating: start of batch 7; got log keys: []";
    "...Evaluating: end of batch 7; got log keys: ['loss', 'mean_absolute_error']";
    "Stop testing; got log keys: ['loss', 'mean_absolute_error']";
    "Start predicting; got log keys: []";
    "...Predicting: start of batch 0; got log keys: []";
    "...Predicting: end of batch 0; got log keys: ['outputs']";
    "...Predicting: start of batch 1; got log keys: []";
    "...Predicting: end of batch 1; got log keys: ['outputs']";
    "...Predicting: start of batch 2; got log keys: []";
    "...Predicting: end of batch 2; got log keys: ['outputs']";
    "...Predicting: start of batch 3; got log keys: []";
    "...Predicting: end of batch 3; got log keys: ['outputs']";
    "...Predicting: start of batch 4; got log keys: []";
    "...Predicting: end of batch 4; got log keys: ['outputs']";
    "...Predicting: start of batch 5; got log keys: []";
    "...Predicting: end of batch 5; got log keys: ['outputs']";
    "...Predicting: start of batch 6; got log keys: []";
    "...Predicting: end of batch 6; got log keys: ['outputs']";
    "...Predicting: start of batch 7; got log keys: []";
    "...Predicting: end of batch 7; got log keys: ['outputs']";
    "Stop predicting; got log keys: []" ]%string.

(** The [logs] example: [fit] for two epochs, then [evaluate], with a
    [LossAndErrorPrintingCallback]. *)
Definition recorded_logs_usage : stdout :=
  [ "Up to batch 0, the average loss is   29.31.";
    "Up to batch 1, the average loss is  512.64.";
    "Up to batch 2, the average loss is  350.57.";
    "Up to batch 3, the average loss is  265.43.";
    "Up to batch 4, the average loss is  213.89.";
    "Up to batch 5, the average loss is  179.16.";
    "Up to batch 6, the average loss is  154.27.";
    "Up to batch 7, the average loss is  138.75.";
    "The average loss for epoch 0 is  138.75 and mean absolute error is    6.25.";
    "Up to batch 0, the average loss is    4.18.";
    "Up to batch 1, the average loss is    3.92.";
    "Up to batch 2, the average loss is    4.18.";
    "Up to batch 3, the average loss is    4.45.";
    "Up to batch 4, the average loss is    4.64.";
    "Up to batch 5, the average loss is    4.51.";
    "Up to batch 6, the average loss is    4.40.";
    "Up to batch 7, the average loss is    4.38.";
    "The average loss for epoch 1 is    4.38 and mean absolute error is    1.68.";
    "Up to batch 0, the average loss is    4.69.";
    "Up to batch 1, the average loss is    4.15.";
    "Up to batch 2, the average loss is    4.21.";
    "Up to batch 3, the average loss is    4.19.";
    "Up to batch 4, the average loss is    4.38.";
    "Up to batch 5, the average loss is    4.39.";
    "Up to batch 6, the average loss is    4.35.";
    "Up to batch 7, the average loss is    4.30." ]%string.

(** The running average of the loss it shows after each training batch, by
    epoch, and the mean absolute error at the end of each epoch. *)
Definition logs_usage_losses : list (list Q) :=
  [ [29.31; 512.64; 350.57; 265.43; 213.89; 179.16; 154.27; 138.75];
    [4.18; 3.92; 4.18; 4.45; 4.64; 4.51; 4.40; 4.38] ]%Q.

Definition logs_usage_errors : list Q :=
  [ 6.25; 1.68 ]%Q.

(** The running average of the loss after each test batch. *)
Definition logs_usage_test_losses : list Q :=
  [ 4.69; 4.15; 4.21; 4.19; 4.38; 4.39; 4.35; 4.30 ]%Q.

(** The early-stopping example. *)
Definition recorded_early_stopping : stdout :=
  [ "Up to batch 0, the average loss is   30.77.";
    "Up to batch 1, the average loss is  404.93.";
    "Up to batch 2, the average loss is  279.35.";
    "Up to batch 3, the average loss is  212.39.";
    "Up to batch 4, the average loss is  171.63.";
    "The average loss for epoch 0 is  171.63 and mean absolute error is    8.15.";
    "Up to batch 0, the average loss is    7.50.";
    "Up to batch 1, the average loss is    7.42.";
    "Up to batch 2, the average loss is    6.51.";
    "Up to batch 3, the average loss is    5.84.";
    "Up to batch 4, the average loss is    5.81.";
    "The average loss for epoch 1 is    5.81 and mean absolute error is    1.95.";
    "Up to batch 0, the average loss is    4.37.";
    "Up to batch 1, the average loss is    4.28.";
    "Up to batch 2, the average loss is    4.92.";
    "Up to batch 3, the average loss is    5.16.";
    "Up to batch 4, the average loss is    4.85.";
    "The average loss for epoch 2 is    4.85 and mean absolute error is    1.72.";
    "Up to batch 0, the average loss is    5.56.";
    "Up to batch 1, the average loss is    5.47.";
    "Up to batch 2, the average loss is    6.74.";
    "Up to batch 3, the average loss is    8.29.";
    "Up to batch 4, the average loss is   12.65.";
    "The average loss for epoch 3 is   12.65 and mean absolute error is    2.83.";
    "Restoring model weights from the end of the best epoch.";
    "Epoch 00004: early stopping" ]%string.

(** The running average of the loss it shows after each training batch, by
    epoch, and the mean absolute error at the end of each epoch. *)
Definition early_stopping_losses : list (list Q) :=
  [ [30.77; 404.93; 279.35; 212.39; 171.63];
    [7.50; 7.42; 6.51; 5.84; 5.81];
    [4.37; 4.28; 4.92; 5.16; 4.85];
    [5.56; 5.47; 6.74; 8.29; 12.65] ]%Q.

Definition early_stopping_errors : list Q :=
  [ 8.15; 1.95; 1.72; 2.83 ]%Q.

(** The learning-rate scheduling example. *)
Definition recorded_lr_scheduling : stdout :=
  [ EmptyString;
    "Epoch 00000: Learning rate is 0.1000.";
    "Up to batch 0, the average loss is   25.90.";
    "Up to batch 1, the average loss is  446.06.";
    "Up to batch 2, the average loss is  302.86.";
    "Up to batch 3, the average loss is  229.09.";
    "Up to batch 4, the average loss is  185.14.";
    "The average loss for epoch 0 is  185.14 and mean absolute error is    7.99.";
    EmptyString;
    "Epoch 00001: Learning rate is 0.1000.";
    "Up to batch 0, the average loss is    8.11.";
    "Up to batch 1, the average loss is    7.09.";
    "Up to batch 2, the average loss is    6.84.";
    "Up to batch 3, the average loss is    6.71.";
    "Up to batch 4, the average loss is    6.49.";
    "The average loss for epoch 1 is    6.49 and mean absolute error is    2.05.";
    EmptyString;
    "Epoch 00002: Learning rate is 0.1000.";
    "Up to batch 0, the average loss is    3.48.";
    "Up to batch 1, the average loss is    3.78.";
    "Up to batch 2, the average loss is    4.33.";
    "Up to batch 3, the average loss is    4.64.";
    "Up to batch 4, the average loss is    4.87.";
    "The average loss for epoch 2 is    4.87 and mean absolute error is    1.79.";
    EmptyString;
    "Epoch 00003: Learning rate is 0.0500.";
    "Up to batch 0, the average loss is    4.93.";
    "Up to batch 1, the average loss is    4.37.";
    "Up to batch 2, the average loss is    4.01.";
    "Up to batch 3, the average loss is    3.88.";
    "Up to batch 4, the average loss is    3.54.";
    "The average loss for epoch 3 is    3.54 and mean absolute error is    1.48.";
    EmptyString;
    "Epoch 00004: Learning rate is 0.0500.";
    "Up to batch 0, the average loss is    4.72.";
    "Up to batch 1, the average loss is    3.94.";
    "Up to batch 2, the average loss is    4.28.";
    "Up to batch 3, the average loss is    4.58.";
    "Up to batch 4, the average loss is    4.74.";
    "The average loss for epoch 4 is    4.74 and mean absolute error is    1.70.";
    EmptyString;
    "Epoch 00005: Learning rate is 0.0500.";
    "Up to batch 0, the average loss is    4.33.";
    "Up to batch 1, the average loss is    4.53.";
    "Up to batch 2, the average loss is    4.89.";
    "Up to batch 3, the average loss is    4.65.";
    "Up to batch 4, the average loss is    4.41.";
    "The average loss for epoch 5 is    4.41 and mean absolute error is    1.68.";
    EmptyString;
    "Epoch 00006: Learning rate is 0.0100.";
    "Up to batch 0, the average loss is    4.70.";
    "Up to batch 1, the average loss is    5.11.";
    "Up to batch 2, the average loss is    4.57.";
    "Up to batch 3, the average loss is    4.41.";
    "Up to batch 4, the average loss is    4.11.";
    "The average loss for epoch 6 is    4.11 and mean absolute error is    1.64.";
    EmptyString;
    "Epoch 00007: Learning rate is 0.0100.";
    "Up to batch 0, the average loss is    1.89.";
    "Up to batch 1, the average loss is    2.54.";
    "Up to batch 2, the average loss is    2.68.";
    "Up to batch 3, the average loss is    3.23.";
    "Up to batch 4, the average loss is    3.25.";
    "The average loss for epoch 7 is    3.25 and mean absolute error is    1.37.";
    EmptyString;
    "Epoch 00008: Learning rate is 0.0100.";
    "Up to batch 0, the average loss is    3.40.";
    "Up to batch 1, the average loss is    2.87.";
    "Up to batch 2, the average loss is    3.19.";
    "Up to batch 3, the average loss is    3.02.";
    "Up to batch 4, the average loss is    2.97.";
    "The average loss for epoch 8 is    2.97 and mean absolute error is    1.34.";
    EmptyString;
    "Epoch 00009: Learning rate is 0.0050.";
    "Up to batch 0, the average loss is    4.29.";
    "Up to batch 1, the average loss is    4.32.";
    "Up to batch 2, the average loss is    4.12.";
    "Up to batch 3, the average loss is    3.75.";
    "Up to batch 4, the average loss is    3.57.";
    "The average loss for epoch 9 is    3.57 and mean absolute error is    1.46.";
    EmptyString;
    "Epoch 00010: Learning rate is 0.0050.";
    "Up to batch 0, the average loss is    2.36.";
    "Up to batch 1, the average loss is    3.45.";
    "Up to batch 2, the average loss is    3.55.";
    "Up to batch 3, the average loss is    3.65.";
    "Up to batch 4, the average loss is    3.75.";
    "The average loss for epoch 10 is    3.75 and mean absolute error is    1.50.";
    EmptyString;
    "Epoch 00011: Learning rate is 0.0050.";
    "Up to batch 0, the average loss is    2.80.";
    "Up to batch 1, the average loss is    2.62.";
    "Up to batch 2, the average loss is    3.09.";
    "Up to batch 3, the average loss is    3.09.";
    "Up to batch 4, the average loss is    2.98.";
    "The average loss for epoch 11 is    2.98 and mean absolute error is    1.35.";
    EmptyString;
    "Epoch 00012: Learning rate is 0.0010.";
    "Up to batch 0, the average loss is    3.54.";
    "Up to batch 1, the average loss is    3.30.";
    "Up to batch 2, the average loss is    2.97.";
    "Up to batch 3, the average loss is    3.02.";
    "Up to batch 4, the average loss is    3.00.";
    "The average loss for epoch 12 is    3.00 and mean absolute error is    1.36.";
    EmptyString;
    "Epoch 00013: Learning rate is 0.0010.";
    "Up to batch 0, the average loss is    3.05.";
    "Up to batch 1, the average loss is    2.87.";
    "Up to batch 2, the average loss is    2.96.";
    "Up to batch 3, the average loss is    2.93.";
    "Up to batch 4, the average loss is    2.96.";
    "The average loss for epoch 13 is    2.96 and mean absolute error is    1.30.";
    EmptyString;
    "Epoch 00014: Learning rate is 0.0010.";
    "Up to batch 0, the average loss is    3.65.";
    "Up to batch 1, the average loss is    3.28.";
    "Up to batch 2, the average loss is    3.16.";
    "Up to batch 3, the average loss is    3.20.";
    "Up to batch 4, the average loss is    3.35.";
    "The average loss for epoch 14 is    3.35 and mean absolute error is    1.45." ]%string.

(** The running average of the loss it shows after each training batch, by
    epoch, and the mean absolute error at the end of each epoch. *)
Definition lr_scheduling_losses : list (list Q) :=
  [ [25.90; 446.06; 302.86; 229.09; 185.14];
    [8.11; 7.09; 6.84; 6.71; 6.49];
    [3.48; 3.78; 4.33; 4.64; 4.87];
    [4.93; 4.37; 4.01; 3.88; 3.54];
    [4.72; 3.94; 4.28; 4.58; 4.74];
    [4.33; 4.53; 4.89; 4.65; 4.41];
    [4.70; 5.11; 4.57; 4.41; 4.11];
    [1.89; 2.54; 2.68; 3.23; 3.25];
    [3.40; 2.87; 3.19; 3.02; 2.97];
    [4.29; 4.32; 4.12; 3.75; 3.57];
    [2.36; 3.45; 3.55; 3.65; 3.75];
    [2.80; 2.62; 3.09; 3.09; 2.98];
    [3.54; 3.30; 2.97; 3.02; 3.00];
    [3.05; 2.87; 2.96; 2.93; 2.96];
    [3.65; 3.28; 3.16; 3.20; 3.35] ]%Q.

Definition lr_scheduling_errors : list Q :=
  [ 7.99; 2.05; 1.79; 1.48; 1.70; 1.68; 1.64; 1.37; 1.34; 1.46; 1.50; 1.35; 1.36; 1.30; 1.45 ]%Q.

(** ** The notebook's runs on the model of the driver *)

(** Weights are opaque to the callbacks; in the runs below they are labelled
    with the epoch and batch whose training step produced them. *)
Definition label : Type := (nat * nat)%type.

(** [get_model()]: RMSprop with learning rate 0.1, loss and one metric. *)
Definition get_model : World label :=
  {| model := {| stop_training := false;
                 weights := (0, 0);
                 optimizer := {| learning_rate := Some (Finite 0.1%Q) |} |};
     printed := [] |}.

(** An optimizer without a learning rate. *)
Definition bare_model : World label :=
  {| model := {| stop_training := false;
                 weights := (0, 0);
                 optimizer := {| learning_rate := None |} |};
     printed := [] |}.

(** Number of batches of [batch_size] that [samples] samples make. *)
Definition number_of_batches (samples batch_size : nat) : nat :=
  (samples + batch_size - 1) / batch_size.

(** A partial observer made total: once an exception has escaped, nothing else
    runs. *)
Definition guarded {S : Type} (h : call -> S -> result S) (c : call)
  (r : result S) : result S :=
  match r with
  | inl e => inl e
  | inr s => h c s
  end.

Definition stop_requested {S : Type} (world_of : S -> World label)
  (r : result S) : bool :=
  match r with
  | inl _ => true
  | inr s => stop_training (model (world_of s))
  end.

(** The framework's steps replayed from a recorded run: the training step of
    batch [b] of epoch [e] leaves weights labelled [(e, b)] and reports the
    recorded running loss and the epoch's recorded error. *)
Definition replay {S : Type} (trained : label -> S -> S)
  (losses : list (list Q)) (errors : list Q) (test_losses : list Q)
  : Framework (result S) :=
  {| metrics_names := ["mean_absolute_error"];
     train_step := fun e b r =>
       (match r with
        | inl x => inl x
        | inr s => inr (trained (e, b) s)
        end,
        (Finite (nth b (nth e losses []) 0%Q), [Finite (nth e errors 0%Q)]));
     test_step := fun b r =>
       (r, (Finite (nth b test_losses 0%Q), [Finite 0%Q]));
     predict_step := fun b r => (r, Finite 0%Q) |}.

(** *** The basic example *)

Definition basic_callbacks : list (call -> result (World label) -> result (World label)) :=
  [guarded (fun c w => inr (CustomCallback c w))].

Definition basic_framework : Framework (result (World label)) :=
  replay with_weights [] [] [].

(** [x_train[:1000]] with [validation_split=0.5] and [batch_size=128]. *)
Definition basic_fit : result (World label) * list event :=
  fit (stop_requested id) basic_framework basic_callbacks
    1 (number_of_batches 500 128) (Some (number_of_batches 500 128))
    (inr get_model).

Definition basic_evaluate (w : result (World label))
  : result (World label) * Logs * list event :=
  evaluate (stop_requested id) basic_framework basic_callbacks
    (number_of_batches 1000 128) w.

Definition basic_predict (w : result (World label))
  : result (World label) * list event :=
  predict (stop_requested id) basic_framework basic_callbacks
    (number_of_batches 1000 128) w.

(** The three runs of the cell, one after the other. *)
Definition basic_example : result (World label) :=
  fst (basic_predict (fst (fst (basic_evaluate (fst basic_fit))))).

(** What a run has printed, unless an exception escaped. *)
Definition output {S : Type} (world_of : S -> World label) (r : result S)
  : option stdout :=
  match r with
  | inl _ => None
  | inr s => Some (printed (world_of s))
  end.

(** The [predict] run of the cell, on the world [fit] and [evaluate] left. *)
Definition basic_predict_run : result (World label) * list event :=
  basic_predict (fst (fst (basic_evaluate (fst basic_fit)))).



(** *** The [logs] example *)

Definition logs_usage_callbacks
  : list (call -> result (World label) -> result (World label)) :=
  [guarded LossAndErrorPrintingCallback.handle].

Definition logs_usage_framework : Framework (result (World label)) :=
  replay with_weights logs_usage_losses logs_usage_errors logs_usage_test_losses.

Definition logs_usage_example : result (World label) :=
  let w1 := fst (fit (stop_requested id) logs_usage_framework
                   logs_usage_callbacks 2 (number_of_batches 1000 128) None
                   (inr get_model)) in
  fst (fst (evaluate (stop_requested id) logs_usage_framework
              logs_usage_callbacks (number_of_batches 1000 128) w1)).

(** *** The early-stopping example *)

Definition stopper_state : Type :=
  (EarlyStoppingAtMinLoss.self label * World label)%type.

Definition early_stopping_callbacks
  : list (call -> result stopper_state -> result stopper_state) :=
  [ guarded (fun c sw =>
       match LossAndErrorPrintingCallback.handle c (snd sw) with
       | inl e => inl e
       | inr w => inr (fst sw, w)
       end);
    guarded EarlyStoppingAtMinLoss.handle ].

Definition early_stopping_framework : Framework (result stopper_state) :=
  replay (fun l sw => (fst sw, with_weights l (snd sw)))
    early_stopping_losses early_stopping_errors [].

(** [steps_per_epoch=5, epochs=30], [EarlyStoppingAtMinLoss()] with its
    default patience 0. *)
Definition early_stopping_example : result stopper_state * list event :=
  fit (stop_requested snd) early_stopping_framework early_stopping_callbacks
    30 5 None (inr (EarlyStoppingAtMinLoss.init 0, get_model)).

(** The four epoch ends of the recorded run, as [on_epoch_end] sees them. *)
Definition early_stopping_epochs : list (EarlyStoppingAtMinLoss.epoch_record label) :=
  map (fun e =>
         {| EarlyStoppingAtMinLoss.ep_index := e;
            EarlyStoppingAtMinLoss.ep_loss :=
              Finite (last (nth e early_stopping_losses []) 0%Q);
            EarlyStoppingAtMinLoss.ep_metrics :=
              [("mean_absolute_error", Finite (nth e early_stopping_errors 0%Q))];
            EarlyStoppingAtMinLoss.ep_weights := (e, 4) |})
      (seq 0 4).

(** The callback after the end of epoch 2, the best one. *)
Definition at_best_epoch : EarlyStoppingAtMinLoss.self label :=
  {| EarlyStoppingAtMinLoss.patience := 0;
     EarlyStoppingAtMinLoss.best_weights := Some (2, 4);
     EarlyStoppingAtMinLoss.wait := 0;
     EarlyStoppingAtMinLoss.stopped_epoch := 0;
     EarlyStoppingAtMinLoss.best := Finite 4.85%Q |}.


(** *** The learning-rate scheduling example *)

Definition lr_scheduling_callbacks
  : list (call -> result (World label) -> result (World label)) :=
  [ guarded LossAndErrorPrintingCallback.handle;
    guarded (CustomLearningRateScheduler.handle
               (CustomLearningRateScheduler.init lr_schedule)) ].

Definition lr_scheduling_framework : Framework (result (World label)) :=
  replay with_weights lr_scheduling_losses lr_scheduling_errors [].

(** [steps_per_epoch=5, epochs=15]. *)
Definition lr_scheduling_example : result (World label) * list event :=
  fit (stop_requested id) lr_scheduling_framework lr_scheduling_callbacks
    15 5 None (inr get_model).

(** ** Further code of the masking notebook *)

(** Modelled from the spec: [tf.split(value, 2, axis=1)] is a function of the
    framework; the notebook's comment says what it is used for ("split the
    input tensor into 2 subtensors along the time axis (axis 1)").  The time
    axis must have an even size; the elements along it (booleans of a mask,
    feature vectors of a rank-3 input) are kept whole. *)
Definition split2 {A : Type} (value : tensor2 A)
  : result (tensor2 A * tensor2 A) :=
  match shape value with
  | Some (_, timesteps) =>
      if Nat.even timesteps
      then inr (map (firstn (timesteps / 2)) value,
                map (skipn (timesteps / 2)) value)
      else inl (FrameworkError "tf.split")
  | None => inl (FrameworkError "tf.split")
  end.

(** The two halves put side by side again, along the time axis. *)
Definition concat_axis1 {A : Type} (first second : tensor2 A) : tensor2 A :=
  map (fun p => fst p ++ snd p) (combine first second).

Module TemporalSplit.

(** [TemporalSplit.call(self, inputs)]: a rank-3 input is a rank-2 tensor of
    feature vectors. *)
Definition call {A : Type} (inputs : tensor2 (list A))
  : result (tensor2 (list A) * tensor2 (list A)) :=
  split2 inputs.

(** [TemporalSplit.compute_mask(self, inputs, mask=None)] *)
Definition compute_mask {A : Type} (inputs : tensor2 (list A))
  (mask : option (tensor2 bool))
  : result (option (tensor2 bool * tensor2 bool)) :=
  match mask with
  | None => inr None
  | Some m =>
      match split2 m with
      | inl e => inl e
      | inr halves => inr (Some halves)
      end
  end.

End TemporalSplit.

(** The masks the notebook prints for [first_half] and [second_half]. *)
Definition recorded_first_half_mask : tensor2 bool :=
  [ [true; true; true];
    [true; true; true];
    [true; true; true] ].

Definition recorded_second_half_mask : tensor2 bool :=
  [ [false; false; false];
    [true; true; false];
    [true; true; true] ].

Module CustomEmbeddingLayer.

(** [CustomEmbedding.build]: the weight [self.embeddings] of shape
    [(input_dim, output_dim)]; [initial i j] is the value the random
    initializer drew for entry [(i, j)]. *)
Definition build (self : CustomEmbedding) (initial : nat -> nat -> pyfloat)
  : tensor2 pyfloat :=
  map (fun i => map (initial i) (seq 0 (output_dim self)))
      (seq 0 (input_dim self)).

(** Modelled from the spec: [tf.nn.embedding_lookup(params, ids)] of the
    framework gathers row [ids[i][t]] of [params] for every position; an
    index outside the table is refused. *)
Definition embedding_lookup (params : tensor2 pyfloat) (ids : tensor2 Z)
  : result (tensor2 (list pyfloat)) :=
  if forallb (forallb (fun x => (0 <=? x)%Z
                                && (x <? Z.of_nat (List.length params))%Z)) ids
  then inr (map (map (fun x => nth (Z.to_nat x) params [])) ids)
  else inl (FrameworkError "tf.nn.embedding_lookup").

(** [CustomEmbedding.call(self, inputs)] *)
Definition call (embeddings : tensor2 pyfloat) (inputs : tensor2 Z)
  : result (tensor2 (list pyfloat)) :=
  embedding_lookup embeddings inputs.

End CustomEmbeddingLayer.

(** ** Further notions for the callbacks *)

(** The metrics a method of [LossAndErrorPrintingCallback] reads from
    [logs]. *)
Definition keys_read (c : call) : list string :=
  match c with
  | BatchEnd Train _ _ | BatchEnd Test _ _ => ["loss"]
  | EpochEnd _ _ => ["loss"; "mean_absolute_error"]
  | _ => []
  end.

(** The number of epoch ends at the beginning of a run whose loss is not
    below [np.Inf] (it is infinite or not a number). *)
Fixpoint leading_without_minimum {Weights : Type}
  (xs : list (EarlyStoppingAtMinLoss.epoch_record Weights)) : nat :=
  match xs with
  | [] => 0
  | x :: rest =>
      if np_less (EarlyStoppingAtMinLoss.ep_loss x) np_Inf then 0
      else S (leading_without_minimum rest)
  end.

(** Every loss of [xs] is strictly below the one before it, the first below
    [bound]. *)
Fixpoint improving_from {Weights : Type} (bound : pyfloat)
  (xs : list (EarlyStoppingAtMinLoss.epoch_record Weights)) : Prop :=
  match xs with
  | [] => True
  | x :: rest =>
      np_less (EarlyStoppingAtMinLoss.ep_loss x) bound = true
      /\ improving_from (EarlyStoppingAtMinLoss.ep_loss x) rest
  end.



(** A character that is not a decimal digit begins [s] (or [s] is empty). *)
Definition no_digit_ahead (s : string) : Prop :=
  match s with
  | EmptyString => True
  | String c _ => (c <? "0")%char = true \/ ("9" <? c)%char = true
  end.

(* ================================================================== *)
(** * Part II: properties                                              *)
(* ================================================================== *)

(** ** The order on floats *)





(** ** Learning-rate schedule *)

(** C9. [lr_schedule epoch lr] is a function of its two arguments alone: it
    is 0.05 at epoch 3, 0.01 at epoch 6, 0.005 at epoch 9, 0.001 at epoch 12,
    and [lr] itself at every other epoch (below 3, above 12 and in between). *)
Theorem lr_schedule_table (epoch : Z) (lr : pyfloat) :
  lr_schedule epoch lr =
    if (epoch =? 3)%Z then Finite 0.05%Q
    else if (epoch =? 6)%Z then Finite 0.01%Q
    else if (epoch =? 9)%Z then Finite 0.005%Q
    else if (epoch =? 12)%Z then Finite 0.001%Q
    else lr.
Proof.
  unfold lr_schedule, LR_SCHEDULE. cbn [nth last fst snd find].
  destruct (Z.ltb_spec epoch 3) as [Hlo|Hlo].
  - cbn [orb].
    repeat match goal with
           | |- context [(epoch =? ?k)%Z] =>
               destruct (Z.eqb_spec epoch k); [lia|]
           end.
    reflexivity.
  - cbn [orb]. rewrite Z.gtb_ltb.
    destruct (Z.ltb_spec 12 epoch) as [Hhi|Hhi].
    + repeat match goal with
             | |- context [(epoch =? ?k)%Z] =>
                 destruct (Z.eqb_spec epoch k); [lia|]
             end.
      reflexivity.
    + repeat match goal with
             | |- context [(epoch =? ?k)%Z] =>
                 destruct (Z.eqb_spec epoch k); [reflexivity|]
             end.
      reflexivity.
Qed.

(** ** Masks *)

Lemma same_length_map {A B : Type} (f : list A -> list B) (n : nat)
  (t : tensor2 A) :
  (forall r, List.length (f r) = List.length r) ->
  forallb (fun r' => List.length r' =? n) (map f t)
  = forallb (fun r' => List.length r' =? n) t.
Proof.
  intro Hlen. induction t as [|r t IH]; [reflexivity|].
  cbn [map forallb]. now rewrite Hlen, IH.
Qed.

Lemma shape_map {A B : Type} (f : list A -> list B) (t : tensor2 A) :
  (forall r, List.length (f r) = List.length r) ->
  shape (map f t) = shape t.
Proof.
  intro Hlen. destruct t as [|r rest]; [reflexivity|].
  cbn [shape map]. rewrite Hlen, (same_length_map f _ rest Hlen).
  cbn [List.length]. now rewrite length_map.
Qed.

Lemma entry_map {A B : Type} (f : A -> B) (x : tensor2 A) (i t : nat) :
  entry (map (map f) x) i t = option_map f (entry x i t).
Proof.
  unfold entry. rewrite nth_error_map.
  destruct (nth_error x i) as [row|]; cbn [option_map]; [|reflexivity].
  apply nth_error_map.
Qed.



(** The masks the notebook prints for [Embedding(mask_zero=True)] and for
    [Masking()] on the padded batch are the mask [compute_mask] gives. *)
Example recorded_masks_agree :
  compute_mask {| input_dim := 5000; output_dim := 16; mask_zero := true |}
    recorded_padded_inputs = Some recorded_keras_mask
  /\ shape recorded_keras_mask = Some (3, 6).
Proof. split; reflexivity. Qed.

(** Without [mask_zero] the layer produces no mask. *)
Example compute_mask_without_mask_zero (inputs : tensor2 Z) :
  compute_mask {| input_dim := 10; output_dim := 32; mask_zero := false |}
    inputs = None.
Proof. reflexivity. Qed.

(** ** Padding *)

Lemma skipn_repeat {A : Type} (v : A) (k n : nat) :
  skipn k (repeat v n) = repeat v (n - k).
Proof.
  revert n. induction k as [|k IH]; intro n.
  - now rewrite Nat.sub_0_r.
  - destruct n as [|n]; [reflexivity|]. cbn [repeat skipn]. apply IH.
Qed.

Lemma list_max_attained (l : list nat) : l <> [] -> In (list_max l) l.
Proof.
  induction l as [|a l IH]; [congruence|]. intros _.
  destruct l as [|b l].
  - left. cbn. lia.
  - change (list_max (a :: b :: l)) with (Nat.max a (list_max (b :: l))).
    destruct (Nat.max_spec a (list_max (b :: l))) as [[_ E]|[_ E]]; rewrite E.
    + right. apply IH. discriminate.
    + now left.
Qed.

Lemma list_max_bound (l : list nat) (n : nat) : In n l -> n <= list_max l.
Proof.
  intro Hin.
  assert (H : Forall (fun k => k <= list_max l) l)
    by (apply list_max_le; apply Nat.le_refl).
  rewrite Forall_forall in H. now apply H.
Qed.

Lemma shape_rectangular {A : Type} (t : tensor2 A) (n : nat) :
  t <> [] -> (forall r, In r t -> List.length r = n) ->
  shape t = Some (List.length t, n).
Proof.
  destruct t as [|r rest]; [congruence|]. intros _ Hrows.
  cbn [shape].
  assert (Hall : forallb (fun r' => List.length r' =? List.length r) rest = true).
  { apply forallb_forall. intros r' Hin. apply Nat.eqb_eq.
    rewrite (Hrows r' (or_intror Hin)). symmetry. apply Hrows. now left. }
  rewrite Hall. f_equal. f_equal. apply Hrows. now left.
Qed.

Lemma write_row_post {A : Type} (v : A) (n : nat) (s : list A) :
  write_row post (repeat v n) s = s ++ repeat v (n - List.length s).
Proof. unfold write_row. now rewrite skipn_repeat. Qed.

(** C6. [pad_sequences(sequences, padding='post')] maps a non-empty list of
    integer sequences to a rectangular array whose row length is the length
    of the longest sequence; row [i] is sequence [i] unchanged followed by
    the filler 0 in every remaining position. *)
Theorem pad_sequences_post (sequences : list (list Z)) :
  sequences <> [] ->
  exists (padded : tensor2 Z) (maxlen : nat),
    pad_sequences sequences post 0 = Some padded
    /\ (exists longest, In longest sequences /\ List.length longest = maxlen)
    /\ (forall s, In s sequences -> List.length s <= maxlen)
    /\ shape padded = Some (List.length sequences, maxlen)
    /\ (forall i s, nth_error sequences i = Some s ->
          nth_error padded i = Some (s ++ repeat 0%Z (maxlen - List.length s))).
Proof.
  intro Hne.
  set (maxlen := list_max (map (@List.length Z) sequences)).
  exists (map (write_row post (repeat 0%Z maxlen)) sequences), maxlen.
  assert (Hbound : forall s, In s sequences -> List.length s <= maxlen).
  { intros s Hin. apply list_max_bound. now apply in_map. }
  split; [destruct sequences; [congruence|reflexivity]|].
  split.
  { assert (Hin : In maxlen (map (@List.length Z) sequences)).
    { apply list_max_attained. destruct sequences; [congruence|discriminate]. }
    apply in_map_iff in Hin. destruct Hin as [s [Hlen Hin]]. now exists s. }
  split; [exact Hbound|].
  split.
  - rewrite <- (length_map (write_row post (repeat 0%Z maxlen)) sequences).
    apply shape_rectangular.
    + destruct sequences; [congruence|discriminate].
    + intros r Hin. apply in_map_iff in Hin. destruct Hin as [s [<- Hin]].
      rewrite write_row_post, length_app, repeat_length.
      specialize (Hbound s Hin). lia.
  - intros i s Hs. rewrite nth_error_map, Hs. cbn [option_map].
    now rewrite write_row_post.
Qed.

(** The notebook's call: [raw_inputs] becomes the recorded [padded_inputs]. *)
Lemma pad_sequences_post_witness :
  exists (padded : tensor2 Z) (maxlen : nat),
    pad_sequences raw_inputs post 0 = Some padded
    /\ (exists longest, In longest raw_inputs /\ List.length longest = maxlen)
    /\ (forall s, In s raw_inputs -> List.length s <= maxlen)
    /\ shape padded = Some (List.length raw_inputs, maxlen)
    /\ (forall i s, nth_error raw_inputs i = Some s ->
          nth_error padded i = Some (s ++ repeat 0%Z (maxlen - List.length s))).
Proof.
  apply (pad_sequences_post raw_inputs). discriminate.
Defined.

Example pad_sequences_pre :
  pad_sequences raw_inputs pre 0 =
    Some [ [0; 0; 0; 711; 632; 71];
           [0; 73; 8; 3215; 55; 927];
           [83; 91; 1; 645; 1253; 927] ]%Z.
Proof. reflexivity. Qed.

Example pad_sequences_recorded :
  pad_sequences raw_inputs post 0 = Some recorded_padded_inputs.
Proof. reflexivity. Qed.

(** ** The callback interface *)

Lemma hooks_complete (h : hook) : In h hooks.
Proof. destruct h; cbn; tauto. Qed.

Lemma hooks_NoDup : NoDup hooks.
Proof.
  unfold hooks.
  repeat (constructor; [cbn; intuition discriminate|]).
  constructor.
Qed.

(** C4, as the code has it.  The observer interface comprises exactly
    fourteen lifecycle points: run-begin and run-end (one each for train, test
    and predict), batch-begin and batch-end (one each for train, test and
    predict), and epoch-begin and epoch-end (training only).  Every
    invocation at a batch or epoch point carries an index, the batch or epoch
    number; a run-level invocation carries none. *)
Theorem callback_interface :
  NoDup hooks
  /\ (forall h, In h hooks)
  /\ List.length hooks = 14
  /\ List.length (filter (fun h => match level_of h with run_level => true | _ => false end) hooks) = 6
  /\ List.length (filter (fun h => match level_of h with batch_level => true | _ => false end) hooks) = 6
  /\ List.length (filter (fun h => match level_of h with epoch_level => true | _ => false end) hooks) = 2
  /\ (forall c : call,
        match level_of (method c) with
        | run_level => index c = None /\ parameters (method c) = ["logs"]
        | batch_level =>
            (exists batch, index c = Some batch)
            /\ parameters (method c) = ["batch"; "logs"]
        | epoch_level =>
            (exists epoch, index c = Some epoch)
            /\ parameters (method c) = ["epoch"; "logs"]
        end).
Proof.
  split; [exact hooks_NoDup|].
  split; [exact hooks_complete|].
  repeat (split; [reflexivity|]).
  intros [[]| []| | |[]|[]]; cbn; eauto.
Qed.

(** C4, as stated, fails: no enumeration of the lifecycle points has nine
    entries. *)
Lemma nine_lifecycle_points_refuted :
  ~ (exists l : list hook,
       NoDup l /\ (forall h, In h l) /\ List.length l = 9).
Proof.
  intros [l [Hnd [Hall Hlen]]].
  assert (H : List.length hooks <= List.length l).
  { apply NoDup_incl_length; [exact hooks_NoDup|]. intros h _. apply Hall. }
  rewrite Hlen in H. cbn in H. lia.
Qed.

(** ** Errors raised by the notebook's code *)

Section Raises.
Context {Weights : Type}.

(** C8, as the code has it.  The notebook's code has exactly one [raise] of
    its own: [CustomLearningRateScheduler.on_epoch_begin] raises
    [ValueError('Optimizer must have a "lr" attribute.')] when the optimizer
    has no learning-rate attribute, and otherwise stores the scheduled rate
    and prints it.  The other callbacks never raise an error of their own;
    what they can fail with comes out of a framework or runtime call. *)
Theorem only_the_scheduler_raises :
  (forall (s : CustomLearningRateScheduler.self) epoch logs (w : World Weights),
      CustomLearningRateScheduler.on_epoch_begin s epoch logs w =
        match learning_rate (optimizer (model w)) with
        | None =>
            inl (Raise (ValueError CustomLearningRateScheduler.lr_message))
        | Some lr =>
            let scheduled_lr :=
              CustomLearningRateScheduler.schedule s (Z.of_nat epoch) lr in
            inr (print ("Epoch " ++ format_d 5 epoch ++ ": Learning rate is "
                        ++ format_f 6 4 scheduled_lr ++ ".")%string
                   (print EmptyString (set_lr scheduled_lr w)))
        end)
  /\ (forall (s : CustomLearningRateScheduler.self) c (w : World Weights),
        raised_by_notebook (CustomLearningRateScheduler.handle s c w)
        = is_epoch_begin c && negb (hasattr_lr w))
  /\ (forall c (sw : EarlyStoppingAtMinLoss.self Weights * World Weights),
        raised_by_notebook (EarlyStoppingAtMinLoss.handle c sw) = false)
  /\ (forall c (w : World Weights),
        raised_by_notebook (LossAndErrorPrintingCallback.handle c w) = false).
Proof.
  split; [|split; [|split]].
  - intros s epoch logs w.
    unfold CustomLearningRateScheduler.on_epoch_begin, hasattr_lr.
    now destruct (learning_rate (optimizer (model w))).
  - intros s c w. destruct c; cbn; trivial.
    unfold CustomLearningRateScheduler.on_epoch_begin, hasattr_lr.
    now destruct (learning_rate (optimizer (model w))).
  - intros c [s w]. destruct c as [[]|[]| | |[]|[]]; cbn; trivial.
    unfold EarlyStoppingAtMinLoss.on_epoch_end.
    destruct (get logs "loss"); trivial.
    destruct (np_less _ _); trivial.
    destruct (_ >=? _)%Z; trivial.
    now destruct (EarlyStoppingAtMinLoss.best_weights s).
  - intros c w. destruct c as [[]|[]| | |[]|[]]; cbn; trivial.
    + unfold LossAndErrorPrintingCallback.on_epoch_end,
        LossAndErrorPrintingCallback.item.
      destruct (get logs "loss"); trivial.
      now destruct (get logs "mean_absolute_error").
    + unfold LossAndErrorPrintingCallback.on_train_batch_end,
        LossAndErrorPrintingCallback.item.
      now destruct (get logs "loss").
    + unfold LossAndErrorPrintingCallback.on_test_batch_end,
        LossAndErrorPrintingCallback.item.
      now destruct (get logs "loss").
Qed.

End Raises.

(** C8, as stated, fails: on an optimizer without the attribute the
    scheduler's own [raise] statement signals the error. *)
Lemma notebook_raises_ValueError :
  ~ (forall (s : CustomLearningRateScheduler.self) epoch logs (w : World label),
       raised_by_notebook
         (CustomLearningRateScheduler.on_epoch_begin s epoch logs w) = false).
Proof.
  intro H.
  specialize (H (CustomLearningRateScheduler.init lr_schedule) 0 [] bare_model).
  discriminate H.
Qed.

Example scheduler_on_bare_model :
  CustomLearningRateScheduler.on_epoch_begin
    (CustomLearningRateScheduler.init lr_schedule) 0 [] bare_model
  = inl (Raise (ValueError CustomLearningRateScheduler.lr_message)).
Proof. reflexivity. Qed.

(** ** Early stopping *)

Section EarlyStopping.
Context {Weights : Type}.
Import EarlyStoppingAtMinLoss.

Lemma get_loss (x : epoch_record Weights) :
  get (ep_logs x) "loss" = Some (ep_loss x).
Proof. reflexivity. Qed.

(** What [on_epoch_end] does, case by case. *)
Lemma on_epoch_end_cases (s : self Weights) (x : epoch_record Weights)
  (w : World Weights) :
  let w' := with_weights (ep_weights x) w in
  on_epoch_end s (ep_index x) (ep_logs x) w' =
    if np_less (ep_loss x) (best s) then
      inr ({| patience := patience s;
              best_weights := Some (ep_weights x);
              wait := 0;
              stopped_epoch := stopped_epoch s;
              best := ep_loss x |}, w')
    else if (wait s + 1 >=? patience s)%Z then
      match best_weights s with
      | Some recorded =>
          inr ({| patience := patience s;
                  best_weights := best_weights s;
                  wait := wait s + 1;
                  stopped_epoch := ep_index x;
                  best := best s |},
               with_weights recorded
                 (print "Restoring model weights from the end of the best epoch."
                    (set_stop_training true w')))
      | None => inl (FrameworkError "model.set_weights(None)")
      end
    else
      inr ({| patience := patience s;
              best_weights := best_weights s;
              wait := (wait s + 1)%Z;
              stopped_epoch := stopped_epoch s;
              best := best s |}, w').
Proof.
  cbv zeta. unfold on_epoch_end. rewrite get_loss.
  destruct (np_less (ep_loss x) (best s)); [reflexivity|].
  destruct (wait s + 1 >=? patience s)%Z; [|reflexivity].
  now destruct (best_weights s).
Qed.




End EarlyStopping.


(** ** The run driver: shape of a run *)

Lemma run_from_app (nested : bool) (m : mode) (p : phase) (l1 l2 : list call) :
  run_from nested m p (l1 ++ l2) =
    match run_from nested m p l1 with
    | Some p' => run_from nested m p' l2
    | None => None
    end.
Proof.
  revert p. induction l1 as [|c l1 IH]; intro p; [reflexivity|].
  cbn [app run_from]. destruct (next nested m p c); [apply IH|reflexivity].
Qed.

Lemma calls_app (l1 l2 : list event) : calls (l1 ++ l2) = calls l1 ++ calls l2.
Proof. apply map_app. Qed.

(** *** What acceptance means *)

Lemma run_from_snoc (nested : bool) (m : mode) (p q : phase)
  (l : list call) (c : call) :
  run_from nested m p (l ++ [c]) = Some q ->
  exists p', run_from nested m p l = Some p' /\ next nested m p' c = Some q.
Proof.
  rewrite run_from_app. destruct (run_from nested m p l) as [p'|];
    [|discriminate].
  cbn [run_from]. intro H. exists p'. split; [reflexivity|].
  now destruct (next nested m p' c) as [q'|]; [inversion H|].
Qed.

Lemma mode_eqb_eq (a b : mode) : mode_eqb a b = true -> a = b.
Proof. now destruct a, b. Qed.

(** An accepted trace begins with the run-begin of its mode and ends with the
    run-end of its mode. *)
Lemma accepted_begins_and_ends (nested : bool) (m : mode) (tr : list call) :
  accepts nested m tr = true ->
  exists l middle l', tr = RunBegin m l :: middle ++ [RunEnd m l'].
Proof.
  unfold accepts. intro H.
  destruct tr as [|c tr]; [discriminate|].
  destruct (exists_last (l := c :: tr) ltac:(discriminate)) as [front [d Heq]].
  rewrite Heq in H.
  destruct (run_from nested m Idle (front ++ [d])) as [q|] eqn:Hrun;
    [|discriminate].
  destruct q; try discriminate.
  apply run_from_snoc in Hrun. destruct Hrun as [p' [Hfront Hd]].
  assert (Hlast : exists l', d = RunEnd m l').
  { destruct p' as [| |e|[e|] b|e|e b|e|], d as [m' l|m' l|e' l|e' l|m' b' l|m' b' l];
      cbn in Hd; try discriminate;
      repeat match type of Hd with
             | (if ?x then _ else _) = _ => destruct x eqn:?; try discriminate
             | match ?x with _ => _ end = _ => destruct x eqn:?; try discriminate
             end.
    apply mode_eqb_eq in Heqb. subst m'. now exists l. }
  destruct Hlast as [l' ->].
  destruct front as [|c' front].
  - cbn in Hfront. inversion Hfront; subst. cbn in Hd.
    destruct (mode_eqb m m); discriminate.
  - cbn [app] in Heq. inversion Heq; subst c'. subst tr.
    cbn [run_from] in Hfront.
    destruct c as [m' l|m' l|e' l|e' l|m' b' l|m' b' l]; cbn in Hfront;
      try discriminate.
    destruct (mode_eqb m m') eqn:Hm; [|discriminate].
    apply mode_eqb_eq in Hm. subst m'. now exists l, front, l'.
Qed.

(** In an accepted trace every batch-end directly follows the batch-begin of
    the same mode and number. *)
Lemma accepted_batch_end_closes_begin (nested : bool) (m : mode)
  (before after : list call) (m' : mode) (batch : nat) (logs : Logs) :
  accepts nested m (before ++ BatchEnd m' batch logs :: after) = true ->
  exists front l, before = front ++ [BatchBegin m' batch l].
Proof.
  unfold accepts. rewrite run_from_app.
  destruct (run_from nested m Idle before) as [p|] eqn:Hbefore; [|discriminate].
  cbn [run_from].
  destruct (next nested m p (BatchEnd m' batch logs)) as [q|] eqn:Hend;
    [|discriminate].
  intros _.
  destruct before as [|c before].
  { cbn in Hbefore. inversion Hbefore; subst. discriminate. }
  destruct (exists_last (l := c :: before) ltac:(discriminate)) as [front [d Heq]].
  rewrite Heq in Hbefore |- *.
  apply run_from_snoc in Hbefore. destruct Hbefore as [p' [_ Hd]].
  exists front.
  destruct p as [| |e|[e|] b|e|e b|e|]; cbn in Hend; try discriminate;
    destruct m'; try discriminate;
    repeat match type of Hend with
           | (if ?x then _ else _) = _ => destruct x eqn:?; try discriminate
           end;
    destruct p' as [| |e1|[e1|] b1|e1|e1 b1|e1|],
             d as [m1 l|m1 l|e2 l|e2 l|m1 b2 l|m1 b2 l];
    cbn in Hd; try discriminate;
    repeat match type of Hd with
           | (if ?x then _ else _) = _ => destruct x eqn:?; try discriminate
           | match ?x with _ => _ end = _ => destruct x eqn:?; try discriminate
           end;
    inversion Hd; subst;
    repeat match goal with
           | H : (_ && _) = true |- _ => apply andb_prop in H; destruct H
           | H : mode_eqb _ _ = true |- _ => apply mode_eqb_eq in H
           | H : (_ =? _) = true |- _ => apply Nat.eqb_eq in H
           end;
    subst; try discriminate; eauto.
Qed.

(** The automaton rejects a batch-end before its batch-begin, an epoch closed
    under another number, a missing run-end and events of another run. *)
Example pattern_rejects :
  nominal_pattern Train
    [RunBegin Train []; EpochBegin 0 []; BatchEnd Train 0 []; BatchBegin Train 0 [];
     EpochEnd 0 []; RunEnd Train []] = false
  /\ nominal_pattern Train
       [RunBegin Train []; EpochBegin 0 []; EpochEnd 1 []; RunEnd Train []] = false
  /\ nominal_pattern Train [RunBegin Train []; EpochBegin 0 []; EpochEnd 0 []] = false
  /\ nominal_pattern Test
       [RunBegin Test []; EpochBegin 0 []; EpochEnd 0 []; RunEnd Test []] = false
  /\ nominal_pattern Test
       [RunBegin Test []; BatchBegin Predict 0 []; BatchEnd Predict 0 [];
        RunEnd Test []] = false
  /\ pattern_with_validation Train
       [RunBegin Train []; EpochBegin 0 []; RunBegin Test []; RunEnd Test [];
        BatchBegin Train 0 []; BatchEnd Train 0 []; EpochEnd 0 [];
        RunEnd Train []] = false.
Proof. repeat split. Qed.

Lemma dict_set_nonempty (d : Logs) (k : string) (v : pyfloat) :
  dict_set d k v <> [].
Proof.
  destruct d as [|[k' v'] d]; cbn; [discriminate|].
  destruct (String.eqb k' k); discriminate.
Qed.

Lemma dict_update_nonempty (d new : Logs) : d <> [] -> dict_update d new <> [].
Proof.
  unfold dict_update. revert d.
  induction new as [|kv new IH]; intros d Hd; [exact Hd|].
  cbn [fold_left]. apply IH. apply dict_set_nonempty.
Qed.

Section DriverFacts.
Context {W : Type}.
Variable stop_flag : W -> bool.
Variable framework : Framework W.
Variable callbacks : list (call -> W -> W).

Local Abbreviation notify := (notify stop_flag callbacks).
Local Abbreviation delivered := (delivered stop_flag callbacks).
Local Abbreviation validation_part :=
  (validation_part stop_flag framework callbacks).
Local Abbreviation step := (step framework).
Local Abbreviation batches := (batches stop_flag framework callbacks).
Local Abbreviation evaluate := (evaluate stop_flag framework callbacks).
Local Abbreviation predict := (predict stop_flag framework callbacks).
Local Abbreviation epoch_body := (epoch_body stop_flag framework callbacks).
Local Abbreviation epochs_loop := (epochs_loop stop_flag framework callbacks).
Local Abbreviation fit := (fit stop_flag framework callbacks).

Lemma notify_eq (c : call) (w : W) :
  notify c w =
    (delivered c w, [{| what := c; stop_after := stop_flag (delivered c w) |}]).
Proof. reflexivity. Qed.

Lemma step_logs_nonempty (m : mode) (epoch batch : nat) (w : W) :
  snd (step m epoch batch w) <> [].
Proof.
  destruct m; cbn.
  - destruct (train_step framework epoch batch w). discriminate.
  - destruct (test_step framework batch w). discriminate.
  - destruct (predict_step framework batch w). discriminate.
Qed.

(** One batch, spelled with projections. *)
Lemma batches_S (m : mode) (epoch n batch : nat) (logs : Logs) (w : W) :
  batches m epoch (S n) batch logs w =
    let w1 := delivered (BatchBegin m batch []) w in
    let w2 := fst (step m epoch batch w1) in
    let logs' := snd (step m epoch batch w1) in
    let w3 := delivered (BatchEnd m batch logs') w2 in
    let e12 := [ {| what := BatchBegin m batch []; stop_after := stop_flag w1 |};
                 {| what := BatchEnd m batch logs'; stop_after := stop_flag w3 |} ] in
    if checks_stop m && stop_flag w3 then (w3, logs', e12)
    else
      let r := batches m epoch n (S batch) logs' w3 in
      (fst (fst r), snd (fst r), e12 ++ snd r).
Proof.
  cbn [Driver.batches]. rewrite notify_eq.
  destruct (step m epoch batch (delivered (BatchBegin m batch []) w))
    as [w2 logs'] eqn:Hstep.
  cbn [fst snd]. rewrite notify_eq.
  destruct (checks_stop m && stop_flag _); [reflexivity|].
  destruct (batches m epoch n (S batch) logs' _) as [[w4 l4] e4].
  reflexivity.
Qed.

Lemma batches_calls (m : mode) (epoch n batch : nat) (logs : Logs) (w : W) :
  Forall (batch_call m) (calls (snd (batches m epoch n batch logs w))).
Proof.
  revert batch logs w. induction n as [|n IH]; intros batch logs w.
  - constructor.
  - rewrite batches_S. cbv zeta.
    assert (Hl := step_logs_nonempty m epoch batch
                    (delivered (BatchBegin m batch []) w)).
    destruct (checks_stop m && stop_flag _); cbn [snd map app].
    + repeat constructor; cbn; auto.
    + constructor; [cbn; auto|]. constructor; [cbn; auto|]. apply IH.
Qed.

Lemma batches_O (m : mode) (epoch batch : nat) (logs : Logs) (w : W) :
  batches m epoch 0 batch logs w = (w, logs, []).
Proof. reflexivity. Qed.

(** After at least one batch the returned snapshot is populated. *)
Lemma batches_logs (m : mode) (epoch n batch : nat) (logs : Logs) (w : W) :
  0 < n -> snd (fst (batches m epoch n batch logs w)) <> [].
Proof.
  revert batch logs w. induction n as [|n IH]; intros batch logs w Hn; [lia|].
  rewrite batches_S. cbv zeta.
  assert (Hl := step_logs_nonempty m epoch batch
                  (delivered (BatchBegin m batch []) w)).
  destruct (checks_stop m && stop_flag _); cbn [fst snd]; [exact Hl|].
  destruct n as [|n]; [exact Hl|]. apply IH. lia.
Qed.


Lemma evaluate_eq (steps : nat) (w : W) :
  evaluate steps w =
    let w1 := delivered (RunBegin Test []) w in
    let r := batches Test 0 steps 0 [] w1 in
    let logs := snd (fst r) in
    let w3 := delivered (RunEnd Test logs) (fst (fst r)) in
    (w3, logs,
     [{| what := RunBegin Test []; stop_after := stop_flag w1 |}]
     ++ snd r
     ++ [{| what := RunEnd Test logs; stop_after := stop_flag w3 |}]).
Proof.
  unfold Driver.evaluate. rewrite notify_eq.
  destruct (batches Test 0 steps 0 [] _) as [[w2 logs] e2].
  now rewrite notify_eq.
Qed.

Lemma predict_eq (steps : nat) (w : W) :
  predict steps w =
    let w1 := delivered (RunBegin Predict []) w in
    let r := batches Predict 0 steps 0 [] w1 in
    let w3 := delivered (RunEnd Predict []) (fst (fst r)) in
    (w3,
     [{| what := RunBegin Predict []; stop_after := stop_flag w1 |}]
     ++ snd r
     ++ [{| what := RunEnd Predict []; stop_after := stop_flag w3 |}]).
Proof.
  unfold Driver.predict. rewrite notify_eq.
  destruct (batches Predict 0 steps 0 [] _) as [[w2 logs] e2].
  now rewrite notify_eq.
Qed.

Lemma epoch_body_eq (validation : option nat) (steps epoch : nat)
  (logs : Logs) (w : W) :
  epoch_body validation steps epoch logs w =
    let w1 := delivered (EpochBegin epoch []) w in
    let r := batches Train epoch steps 0 logs w1 in
    let logs' := snd (fst r) in
    let v := validation_part validation logs' (fst (fst r)) in
    let epoch_logs := snd (fst v) in
    let w4 := delivered (EpochEnd epoch epoch_logs) (fst (fst v)) in
    (w4, logs', epoch_logs,
     [{| what := EpochBegin epoch []; stop_after := stop_flag w1 |}]
     ++ snd r ++ snd v
     ++ [{| what := EpochEnd epoch epoch_logs; stop_after := stop_flag w4 |}]).
Proof.
  unfold Driver.epoch_body. rewrite notify_eq.
  destruct (batches Train epoch steps 0 logs _) as [[w2 logs'] e2].
  cbn [fst snd].
  destruct (validation_part validation logs' w2) as [[w3 epoch_logs] e3].
  now rewrite notify_eq.
Qed.

Lemma epochs_loop_S (validation : option nat) (steps n epoch : nat)
  (logs training_logs : Logs) (w : W) :
  epochs_loop validation steps (S n) epoch logs training_logs w =
    let b := epoch_body validation steps epoch logs w in
    let w1 := fst (fst (fst b)) in
    let logs' := snd (fst (fst b)) in
    let epoch_logs := snd (fst b) in
    if stop_flag w1 then (w1, epoch_logs, snd b)
    else
      let r := epochs_loop validation steps n (S epoch) logs' epoch_logs w1 in
      (fst (fst r), snd (fst r), snd b ++ snd r).
Proof.
  cbn [Driver.epochs_loop].
  destruct (epoch_body validation steps epoch logs w)
    as [[[w1 logs'] epoch_logs] e1].
  cbn [fst snd]. destruct (stop_flag w1); [reflexivity|].
  now destruct (epochs_loop validation steps n (S epoch) logs' epoch_logs w1)
    as [[w2 tl] e2].
Qed.

Lemma fit_eq (epochs steps : nat) (validation : option nat) (w : W) :
  fit epochs steps validation w =
    let w1 := delivered (RunBegin Train []) w in
    let r := epochs_loop validation steps epochs 0 [] [] w1 in
    let training_logs := snd (fst r) in
    let w3 := delivered (RunEnd Train training_logs) (fst (fst r)) in
    (w3,
     [{| what := RunBegin Train []; stop_after := stop_flag w1 |}]
     ++ snd r
     ++ [{| what := RunEnd Train training_logs; stop_after := stop_flag w3 |}]).
Proof.
  unfold Driver.fit. rewrite notify_eq.
  destruct (epochs_loop validation steps epochs 0 [] [] _) as [[w2 tl] e2].
  now rewrite notify_eq.
Qed.

(** *** Every delivered call is one the run may deliver *)

Lemma batches_may_deliver (r : run) (m : mode) (epoch n batch : nat)
  (logs : Logs) (w : W) :
  (0 < n -> 0 < batches_per_pass r m) ->
  Forall (may_deliver r) (calls (snd (batches m epoch n batch logs w))).
Proof.
  intro Hn. destruct n as [|n]; [constructor|].
  assert (Hpos : 0 < batches_per_pass r m) by (apply Hn; lia).
  eapply Forall_impl; [|apply batches_calls].
  intros [ | | | | |] Hc; cbn in Hc |- *; try contradiction;
    destruct Hc as [-> Hl]; now split.
Qed.

Lemma evaluate_may_deliver (r : run) (steps : nat) (w : W) :
  holds_run r Test = true -> batches_per_pass r Test = steps ->
  Forall (may_deliver r) (calls (snd (evaluate steps w))).
Proof.
  intros Hr Hsteps. rewrite evaluate_eq. cbv zeta. cbn [snd].
  rewrite !calls_app. apply Forall_app. split; [|apply Forall_app; split].
  - repeat constructor. exact Hr.
  - apply batches_may_deliver. lia.
  - repeat constructor; [exact Hr|]. rewrite Hsteps. apply batches_logs.
Qed.

Lemma predict_may_deliver (steps : nat) (w : W) :
  Forall (may_deliver (Prediction steps)) (calls (snd (predict steps w))).
Proof.
  rewrite predict_eq. cbv zeta. cbn [snd].
  rewrite !calls_app. apply Forall_app. split; [|apply Forall_app; split].
  - repeat constructor.
  - apply batches_may_deliver. trivial.
  - repeat constructor.
Qed.

Lemma validation_part_may_deliver (e steps : nat) (validation : option nat)
  (logs' : Logs) (w2 : W) :
  Forall (may_deliver (Fit (S e) steps validation))
    (calls (snd (validation_part validation logs' w2)))
  /\ (logs' <> [] -> snd (fst (validation_part validation logs' w2)) <> []).
Proof.
  destruct validation as [vsteps|]; cbn [Driver.validation_part fst snd].
  - split; [now apply evaluate_may_deliver|]. apply dict_update_nonempty.
  - split; [constructor|trivial].
Qed.

Lemma epoch_body_may_deliver (e steps epoch : nat) (validation : option nat)
  (logs : Logs) (w : W) :
  Forall (may_deliver (Fit (S e) steps validation))
    (calls (snd (epoch_body validation steps epoch logs w)))
  /\ (0 < steps -> snd (fst (epoch_body validation steps epoch logs w)) <> []).
Proof.
  rewrite epoch_body_eq. cbv zeta. cbn [fst snd].
  set (r := batches Train epoch steps 0 logs _).
  destruct (validation_part_may_deliver e steps validation
              (snd (fst r)) (fst (fst r))) as [Hv Hlogs].
  assert (Hepoch : 0 < steps ->
            snd (fst (validation_part validation (snd (fst r)) (fst (fst r)))) <> []).
  { intro Hs. apply Hlogs. now apply batches_logs. }
  split; [|exact Hepoch].
  rewrite !calls_app. apply Forall_app. split; [|apply Forall_app; split;
    [|apply Forall_app; split]].
  - repeat constructor. now exists e, steps, validation.
  - apply batches_may_deliver. trivial.
  - exact Hv.
  - repeat constructor; [now exists e, steps, validation|exact Hepoch].
Qed.

Lemma epochs_loop_may_deliver (e steps : nat) (validation : option nat)
  (n epoch : nat) (logs training_logs : Logs) (w : W) :
  Forall (may_deliver (Fit (S e) steps validation))
    (calls (snd (epochs_loop validation steps n epoch logs training_logs w)))
  /\ (0 < n -> 0 < steps ->
      snd (fst (epochs_loop validation steps n epoch logs training_logs w)) <> []).
Proof.
  revert epoch logs training_logs w.
  induction n as [|n IH]; intros epoch logs training_logs w.
  - split; [constructor|lia].
  - rewrite epochs_loop_S. cbv zeta.
    destruct (epoch_body_may_deliver e steps epoch validation logs w)
      as [Hb Hl].
    destruct (stop_flag _); cbn [fst snd].
    + split; [exact Hb|auto].
    + match goal with
      | |- context [epochs_loop validation steps n (S epoch) ?l ?t ?w'] =>
          destruct (IH (S epoch) l t w') as [Hr Hrl]
      end.
      split; [rewrite calls_app; apply Forall_app; now split|].
      intros _ Hs. destruct n as [|n]; [now apply Hl|]. apply Hrl; lia.
Qed.

Lemma fit_may_deliver (epochs steps : nat) (validation : option nat) (w : W) :
  Forall (may_deliver (Fit epochs steps validation))
    (calls (snd (fit epochs steps validation w))).
Proof.
  rewrite fit_eq. cbv zeta. cbn [snd].
  rewrite !calls_app. apply Forall_app. split; [|apply Forall_app; split].
  - repeat constructor.
  - destruct epochs as [|e]; [constructor|]. apply epochs_loop_may_deliver.
  - destruct epochs as [|e].
    + repeat constructor. cbn. lia.
    + repeat constructor. cbn [batches_per_pass]. intro Hs.
      apply (proj2 (epochs_loop_may_deliver e steps validation (S e) 0 [] []
                      (delivered (RunBegin Train []) w))); [lia|exact Hs].
Qed.

(** *** Every run follows the lifecycle pattern *)







(** *** Snapshots *)

Lemma completed_batch_end (m : mode) (tr : list call) :
  completed m tr = true -> exists batch logs, In (BatchEnd m batch logs) tr.
Proof.
  unfold completed. intro H. apply existsb_exists in H.
  destruct H as [c [Hin Hc]]. destruct c as [ | | | | |m' batch logs];
    try discriminate.
  exists batch, logs. destruct m, m'; try discriminate; exact Hin.
Qed.

Lemma may_deliver_snapshots (r : run) (tr : list call) :
  Forall (may_deliver r) tr -> snapshots_follow true tr.
Proof.
  intros Hall before c after Heq. rewrite Forall_forall in Hall.
  assert (Hc : may_deliver r c) by (apply Hall; rewrite Heq; apply in_elt).
  assert (Hdone : forall m, completed m (before ++ [c]) = true ->
                            0 < batches_per_pass r m).
  { intros m Hm. apply completed_batch_end in Hm.
    destruct Hm as [batch [logs Hin]].
    assert (Hd : may_deliver r (BatchEnd m batch logs)).
    { apply Hall. rewrite Heq.
      apply in_app_iff in Hin. destruct Hin as [Hin|[<-|[]]].
      - apply in_app_iff. now left.
      - apply in_elt. }
    apply Hd. }
  unfold snapshot_rule.
  destruct c as [m l|m l|e l|e l|m b l|m b l]; cbn [is_begin snapshot run_of];
    cbn [may_deliver] in Hc.
  - apply Hc.
  - destruct m; try apply Hc; intro Hm; apply Hc; now apply Hdone.
  - apply Hc.
  - intro Hm. apply Hc. now apply Hdone.
  - apply Hc.
  - intros _. apply Hc.
Qed.


(** C2, as the driver has it.  In every run the snapshot is empty at every
    begin (run-begin, epoch-begin, batch-begin); it is populated at every
    batch-end and epoch-end and at the run-end of [fit] and [evaluate] once a
    batch of that run has completed; the run-end of [predict] always carries
    an empty snapshot. *)
Theorem snapshots_empty_then_populated (epochs steps : nat)
  (validation : option nat) (w : W) :
  snapshots_follow true (calls (snd (fit epochs steps validation w)))
  /\ snapshots_follow true (calls (snd (evaluate steps w)))
  /\ snapshots_follow true (calls (snd (predict steps w))).
Proof.
  split; [|split].
  - eapply may_deliver_snapshots, fit_may_deliver.
  - eapply may_deliver_snapshots.
    now apply (evaluate_may_deliver (Evaluate steps)).
  - eapply may_deliver_snapshots, predict_may_deliver.
Qed.

(** C7.  An evaluation or prediction run delivers run-level and batch-level
    calls only: no call of its trace is an epoch-begin or an epoch-end. *)
Theorem epoch_events_only_in_training (steps : nat) (w : W) :
  Forall (fun c => is_epoch_event c = false
                   /\ level_of (method c) <> epoch_level)
    (calls (snd (evaluate steps w)))
  /\ Forall (fun c => is_epoch_event c = false
                       /\ level_of (method c) <> epoch_level)
       (calls (snd (predict steps w))).
Proof.
  split.
  - eapply Forall_impl;
      [|apply (evaluate_may_deliver (Evaluate steps)); reflexivity].
    intros [[]|[]| | |[]|[]] Hc; cbn in Hc |- *;
      try (split; [reflexivity|discriminate]);
      destruct Hc as [[e [s [v Hr]]] _]; discriminate.
  - eapply Forall_impl; [|apply predict_may_deliver].
    intros [[]|[]| | |[]|[]] Hc; cbn in Hc |- *;
      try (split; [reflexivity|discriminate]);
      destruct Hc as [[e [s [v Hr]]] _]; discriminate.
Qed.

End DriverFacts.

(** ** Every observer receives the delivered calls, in order *)

Lemma invocations_app (n : nat) (l1 l2 : list call) :
  invocations n (l1 ++ l2) = invocations n l1 ++ invocations n l2.
Proof. apply flat_map_app. Qed.

Lemma received_one (k n i : nat) (c : call) :
  received k (map (fun j => (j, c)) (seq i n)) =
    if (i <=? k) && (k <? i + n) then [c] else [].
Proof.
  unfold received. revert i. induction n as [|n IH]; intro i.
  - cbn [seq map filter].
    destruct (Nat.leb_spec i k), (Nat.ltb_spec k (i + 0)); trivial; lia.
  - cbn [seq map filter fst].
    destruct (Nat.eqb_spec i k) as [->|Hne]; cbn [map snd]; rewrite IH.
    + destruct (Nat.leb_spec (S k) k); [lia|].
      destruct (Nat.leb_spec k k), (Nat.ltb_spec k (k + S n)); trivial; lia.
    + destruct (Nat.leb_spec (S i) k), (Nat.ltb_spec k (S i + n)),
        (Nat.leb_spec i k), (Nat.ltb_spec k (i + S n)); trivial; lia.
Qed.

(** Observer [k] of [n] receives exactly the delivered calls, in order. *)
Lemma received_invocations (k n : nat) (tr : list call) :
  k < n -> received k (invocations n tr) = tr.
Proof.
  intro Hk. induction tr as [|c tr IH]; [reflexivity|].
  unfold invocations in *. cbn [flat_map].
  unfold received in *. rewrite filter_app, map_app, IH.
  fold (received k (map (fun j => (j, c)) (seq 0 n))). rewrite received_one.
  destruct (Nat.ltb_spec k (0 + n)); [reflexivity|lia].
Qed.

Section Journal.
Context {W : Type}.
Variable stop_flag : W -> bool.
Variable framework : Framework W.
Variable callbacks : list (call -> W -> W).

Local Abbreviation stop_flag' := (fun wj : W * journal => stop_flag (fst wj)).
Local Abbreviation framework' := (beside_journal framework).
Local Abbreviation callbacks' := (recording_from 0 callbacks).
Local Abbreviation n := (List.length callbacks).

Lemma fold_recording (c : call) (cbs : list (call -> W -> W)) (k : nat)
  (w : W) (j : journal) :
  fold_left (fun w cb => cb c w) (recording_from k cbs) (w, j) =
    (fold_left (fun w cb => cb c w) cbs w,
     j ++ map (fun i => (i, c)) (seq k (List.length cbs))).
Proof.
  revert k w j. induction cbs as [|cb cbs IH]; intros k w j.
  - cbn. now rewrite app_nil_r.
  - cbn [recording_from fold_left List.length seq map]. unfold recording at 1.
    cbn [fst snd]. rewrite IH, <- app_assoc. reflexivity.
Qed.

Lemma delivered_recorded (c : call) (w : W) (j : journal) :
  delivered stop_flag' callbacks' c (w, j) =
    (delivered stop_flag callbacks c w, j ++ invocations n [c]).
Proof.
  unfold delivered, notify. cbn [fst]. rewrite fold_recording.
  unfold invocations. cbn [flat_map]. now rewrite app_nil_r.
Qed.

Lemma step_recorded (m : mode) (epoch batch : nat) (w : W) (j : journal) :
  step framework' m epoch batch (w, j) =
    ((fst (step framework m epoch batch w), j),
     snd (step framework m epoch batch w)).
Proof.
  destruct m; cbn.
  - now destruct (train_step framework epoch batch w).
  - now destruct (test_step framework batch w).
  - now destruct (predict_step framework batch w).
Qed.

(** Both journals, spelled out call by call. *)
Ltac same_journal :=
  unfold invocations; rewrite ?map_app;
  cbn [flat_map map what app fst snd];
  rewrite ?flat_map_app; cbn [flat_map];
  rewrite ?app_nil_r; rewrite <- ?app_assoc; reflexivity.

Lemma batches_recorded (m : mode) (epoch k batch : nat) (logs : Logs)
  (w : W) (j : journal) :
  batches stop_flag' framework' callbacks' m epoch k batch logs (w, j) =
    let r := batches stop_flag framework callbacks m epoch k batch logs w in
    ((fst (fst r), j ++ invocations n (calls (snd r))), snd (fst r), snd r).
Proof.
  revert batch logs w j. induction k as [|k IH]; intros batch logs w j.
  - cbn. now rewrite app_nil_r.
  - cbv zeta. rewrite !batches_S. cbv zeta.
    rewrite delivered_recorded, step_recorded. cbn [fst snd].
    rewrite delivered_recorded. cbn [fst snd].
    destruct (checks_stop m && stop_flag _); cbn [fst snd].
    + same_journal.
    + rewrite IH. cbv zeta. same_journal.
Qed.

Lemma evaluate_recorded (steps : nat) (w : W) (j : journal) :
  evaluate stop_flag' framework' callbacks' steps (w, j) =
    let r := evaluate stop_flag framework callbacks steps w in
    ((fst (fst r), j ++ invocations n (calls (snd r))), snd (fst r), snd r).
Proof.
  cbv zeta. rewrite !evaluate_eq. cbv zeta.
  rewrite delivered_recorded, batches_recorded. cbv zeta. cbn [fst snd].
  rewrite delivered_recorded. same_journal.
Qed.

Lemma predict_recorded (steps : nat) (w : W) (j : journal) :
  predict stop_flag' framework' callbacks' steps (w, j) =
    let r := predict stop_flag framework callbacks steps w in
    ((fst r, j ++ invocations n (calls (snd r))), snd r).
Proof.
  cbv zeta. rewrite !predict_eq. cbv zeta.
  rewrite delivered_recorded, batches_recorded. cbv zeta. cbn [fst snd].
  rewrite delivered_recorded. same_journal.
Qed.

Lemma validation_part_recorded (validation : option nat) (logs' : Logs)
  (w : W) (j : journal) :
  validation_part stop_flag' framework' callbacks' validation logs' (w, j) =
    let r := validation_part stop_flag framework callbacks validation logs' w in
    ((fst (fst r), j ++ invocations n (calls (snd r))), snd (fst r), snd r).
Proof.
  destruct validation as [vsteps|]; cbn [validation_part]; cbv zeta.
  - now rewrite evaluate_recorded.
  - cbn. now rewrite app_nil_r.
Qed.

Lemma epoch_body_recorded (validation : option nat) (steps epoch : nat)
  (logs : Logs) (w : W) (j : journal) :
  epoch_body stop_flag' framework' callbacks' validation steps epoch logs (w, j) =
    let r := epoch_body stop_flag framework callbacks validation steps epoch logs w in
    ((fst (fst (fst r)), j ++ invocations n (calls (snd r))),
     snd (fst (fst r)), snd (fst r), snd r).
Proof.
  cbv zeta. rewrite !epoch_body_eq. cbv zeta.
  rewrite delivered_recorded, batches_recorded. cbv zeta. cbn [fst snd].
  rewrite validation_part_recorded. cbv zeta. cbn [fst snd].
  rewrite delivered_recorded. same_journal.
Qed.

Lemma epochs_loop_recorded (validation : option nat) (steps k epoch : nat)
  (logs training_logs : Logs) (w : W) (j : journal) :
  epochs_loop stop_flag' framework' callbacks' validation steps k epoch logs
    training_logs (w, j) =
    let r := epochs_loop stop_flag framework callbacks validation steps k epoch
               logs training_logs w in
    ((fst (fst r), j ++ invocations n (calls (snd r))), snd (fst r), snd r).
Proof.
  revert epoch logs training_logs w j.
  induction k as [|k IH]; intros epoch logs training_logs w j.
  - cbn. now rewrite app_nil_r.
  - cbv zeta. rewrite !epochs_loop_S. cbv zeta.
    rewrite epoch_body_recorded. cbv zeta. cbn [fst snd].
    destruct (stop_flag _); cbn [fst snd]; [reflexivity|].
    rewrite IH. cbv zeta. same_journal.
Qed.

(** With [n] observers registered, the invocations of a run are those its
    trace of delivered calls stands for, and noting them changes nothing
    else. *)
Lemma fit_recorded (epochs steps : nat) (validation : option nat)
  (w : W) (j : journal) :
  fit stop_flag' framework' callbacks' epochs steps validation (w, j) =
    let r := fit stop_flag framework callbacks epochs steps validation w in
    ((fst r, j ++ invocations n (calls (snd r))), snd r).
Proof.
  cbv zeta. rewrite !fit_eq. cbv zeta.
  rewrite delivered_recorded, epochs_loop_recorded. cbv zeta. cbn [fst snd].
  rewrite delivered_recorded. same_journal.
Qed.

(** Each registered observer's own trace of invocations is the trace of
    delivered calls. *)
Lemma every_observer_receives_the_trace (k : nat) :
  k < n ->
  (forall epochs steps validation w,
      received k (snd (fst (fit stop_flag' framework' callbacks' epochs steps
                              validation (w, []))))
      = calls (snd (fit stop_flag framework callbacks epochs steps validation w)))
  /\ (forall steps w,
        received k (snd (fst (fst (evaluate stop_flag' framework' callbacks'
                                     steps (w, [])))))
        = calls (snd (evaluate stop_flag framework callbacks steps w)))
  /\ (forall steps w,
        received k (snd (fst (predict stop_flag' framework' callbacks' steps
                                (w, []))))
        = calls (snd (predict stop_flag framework callbacks steps w))).
Proof.
  intro Hk. split; [|split]; intros.
  - rewrite fit_recorded. cbv zeta. cbn [fst snd app].
    now apply received_invocations.
  - rewrite evaluate_recorded. cbv zeta. cbn [fst snd app].
    now apply received_invocations.
  - rewrite predict_recorded. cbv zeta. cbn [fst snd app].
    now apply received_invocations.
Qed.

End Journal.

(** ** The notebook's runs *)

(** The model of the driver, with the notebook's callbacks registered,
    prints what the notebook records, line by line. *)
Example basic_example_recorded :
  output id basic_example = Some recorded_basic_example.
Proof. vm_compute. reflexivity. Qed.

Example logs_usage_recorded :
  output id logs_usage_example = Some recorded_logs_usage.
Proof. vm_compute. reflexivity. Qed.

Example early_stopping_recorded :
  output snd (fst early_stopping_example) = Some recorded_early_stopping.
Proof. vm_compute. reflexivity. Qed.

Example lr_scheduling_recorded :
  output id (fst lr_scheduling_example) = Some recorded_lr_scheduling.
Proof. vm_compute. reflexivity. Qed.

(** The traces of the basic example, printed by [CustomCallback], are the
    recorded lines: 22 for [fit], 18 for [evaluate], 18 for [predict]. *)
Example basic_traces_recorded :
  map CustomCallback_line (calls (snd basic_fit))
  = firstn 22 recorded_basic_example
  /\ map CustomCallback_line (calls (snd (basic_evaluate (fst basic_fit))))
     = firstn 18 (skipn 22 recorded_basic_example)
  /\ map CustomCallback_line (calls (snd basic_predict_run))
     = skipn 40 recorded_basic_example.
Proof. repeat split; vm_compute; reflexivity. Qed.


(** C2, as stated, fails on the notebook's own [predict] run: after eight
    completed batches the run-end still carries an empty snapshot ("Stop
    predicting; got log keys: []"). *)
Lemma populated_run_end_refuted :
  ~ snapshots_follow false (calls (snd basic_predict_run)).
Proof.
  intro H.
  specialize (H (removelast (calls (snd basic_predict_run)))
                (RunEnd Predict []) []).
  apply H; vm_compute; reflexivity.
Qed.

(** ** The stop flag *)




Lemma quiet_while_unset (l : list event) :
  Forall (fun e => stop_after e = false) l -> quiet l.
Proof.
  induction 1 as [|e l He Hl IH]; [exact I|].
  split; [congruence|exact IH].
Qed.


Section StopFlag.
Context {W : Type}.
Variable stop_flag : W -> bool.
Variable framework : Framework W.
Variable callbacks : list (call -> W -> W).

(** No observer clears the flag once it is set, and neither does a step of
    the framework. *)
Hypothesis observers_never_clear :
  Forall (fun cb => forall c w, stop_flag w = true -> stop_flag (cb c w) = true)
    callbacks.
Hypothesis steps_keep_flag :
  forall m epoch batch w,
    stop_flag w = true -> stop_flag (fst (step framework m epoch batch w)) = true.

Local Abbreviation delivered := (delivered stop_flag callbacks).
Local Abbreviation step := (step framework).
Local Abbreviation batches := (batches stop_flag framework callbacks).
Local Abbreviation evaluate := (evaluate stop_flag framework callbacks).
Local Abbreviation validation_part :=
  (validation_part stop_flag framework callbacks).
Local Abbreviation epoch_body := (epoch_body stop_flag framework callbacks).
Local Abbreviation epochs_loop := (epochs_loop stop_flag framework callbacks).
Local Abbreviation fit := (fit stop_flag framework callbacks).

(** Every event of [evs] that leaves the flag set finds it set in [w]. *)
Local Abbreviation sticky evs w :=
  (Forall (fun ev => stop_after ev = true -> stop_flag w = true) evs).













End StopFlag.





(** In that run four epochs begin, and the flag is set by the end of the
    fourth alone. *)
Example early_stopping_run_stops_after_epoch_3 :
  map (fun ev => index (what ev))
    (filter (fun ev => is_epoch_begin (what ev)) (snd early_stopping_example))
  = [Some 0; Some 1; Some 2; Some 3]
  /\ map (fun ev => method (what ev))
       (filter stop_after (snd early_stopping_example))
     = [on_epoch_end; on_train_end].
Proof. split; vm_compute; reflexivity. Qed.

(* ================================================================== *)
(** * Part III: further properties of the notebooks' code              *)
(* ================================================================== *)

(** ** [TemporalSplit] *)

Lemma shape_rows {A : Type} (t : tensor2 A) (b c : nat) :
  shape t = Some (b, c) ->
  b = List.length t /\ forall r, In r t -> List.length r = c.
Proof.
  destruct t as [|r0 rest]; cbn [shape].
  - intro H. inversion H. split; [reflexivity|intros r []].
  - destruct (forallb _ rest) eqn:Hall; [|discriminate].
    intro H. inversion H; subst. split; [reflexivity|].
    intros r [<-|Hin]; [reflexivity|].
    rewrite forallb_forall in Hall. now apply Nat.eqb_eq, Hall.
Qed.

Lemma combine_map_same {A B C : Type} (f : A -> B) (g : A -> C) (l : list A) :
  combine (map f l) (map g l) = map (fun x => (f x, g x)) l.
Proof. induction l as [|x l IH]; [reflexivity|]. cbn. now rewrite IH. Qed.

Lemma half_of_even (c : nat) : Nat.even c = true -> c = c / 2 + c / 2.
Proof.
  intro H. apply Nat.even_spec in H. destruct H as [k ->].
  rewrite Nat.mul_comm, Nat.div_mul by discriminate. lia.
Qed.

Lemma split2_even {A : Type} (value : tensor2 A) (b c : nat) :
  shape value = Some (b, c) -> Nat.even c = true ->
  split2 value = inr (map (firstn (c / 2)) value, map (skipn (c / 2)) value).
Proof. intros Hs He. unfold split2. now rewrite Hs, He. Qed.

(** [TemporalSplit.compute_mask] loses nothing: for a mask whose time axis
    has an even size, the two masks it returns cover all samples, each has
    half the timesteps, and side by side they are the mask again. *)
Theorem temporal_split_mask_halves {A : Type} (inputs : tensor2 (list A))
  (mask : tensor2 bool) (b c : nat) :
  shape mask = Some (b, c) -> Nat.even c = true ->
  exists first second,
    TemporalSplit.compute_mask inputs (Some mask) = inr (Some (first, second))
    /\ concat_axis1 first second = mask
    /\ List.length first = b /\ List.length second = b
    /\ (forall r, In r first -> List.length r = c / 2)
    /\ (forall r, In r second -> List.length r = c / 2).
Proof.
  intros Hs He. destruct (shape_rows _ _ _ Hs) as [Hb Hrows].
  exists (map (firstn (c / 2)) mask), (map (skipn (c / 2)) mask).
  unfold TemporalSplit.compute_mask. rewrite (split2_even _ _ _ Hs He).
  split; [reflexivity|]. split.
  { unfold concat_axis1. rewrite combine_map_same, map_map. cbn [fst snd].
    rewrite <- (map_id mask) at 2. apply map_ext. intro r. apply firstn_skipn. }
  rewrite !length_map. split; [now symmetry|]. split; [now symmetry|].
  pose proof (half_of_even c He) as Hc.
  split; intros r Hin; apply in_map_iff in Hin; destruct Hin as [r0 [<- Hin]].
  - rewrite length_firstn, (Hrows r0 Hin). lia.
  - rewrite length_skipn, (Hrows r0 Hin). lia.
Qed.

(** On the mask of the notebook's padded batch: the halves are the two masks
    the notebook prints. *)
Lemma temporal_split_mask_halves_witness :
  exists first second,
    TemporalSplit.compute_mask (A := pyfloat) [] (Some recorded_keras_mask)
    = inr (Some (first, second))
    /\ concat_axis1 first second = recorded_keras_mask
    /\ List.length first = 3 /\ List.length second = 3
    /\ (forall r, In r first -> List.length r = 6 / 2)
    /\ (forall r, In r second -> List.length r = 6 / 2).
Proof.
  apply (temporal_split_mask_halves (A := pyfloat) [] recorded_keras_mask 3 6);
    reflexivity.
Defined.

Example temporal_split_recorded :
  TemporalSplit.compute_mask (A := pyfloat) [] (Some recorded_keras_mask)
  = inr (Some (recorded_first_half_mask, recorded_second_half_mask)).
Proof. reflexivity. Qed.

(** An odd number of timesteps cannot be split, and no mask gives no mask. *)
Example temporal_split_edges :
  TemporalSplit.compute_mask (A := pyfloat) [] (Some [[true; false; true]])
  = inl (FrameworkError "tf.split")
  /\ TemporalSplit.compute_mask (A := pyfloat) [] None = inr None.
Proof. split; reflexivity. Qed.

Lemma firstn_map {A B : Type} (f : A -> B) (n : nat) (l : list A) :
  firstn n (map f l) = map f (firstn n l).
Proof.
  revert l. induction n as [|n IH]; intros [|x l]; cbn; trivial.
  now rewrite IH.
Qed.

Lemma skipn_map {A B : Type} (f : A -> B) (n : nat) (l : list A) :
  skipn n (map f l) = map f (skipn n l).
Proof.
  revert l. induction n as [|n IH]; intros [|x l]; cbn; trivial.
Qed.

(** Splitting commutes with mask generation: the masks [TemporalSplit]
    attaches to the two halves of an embedded batch are the masks
    [CustomEmbedding.compute_mask] gives for the two halves of the tokens. *)
Theorem temporal_split_of_token_mask {A : Type} (layer : CustomEmbedding)
  (tokens first second : tensor2 Z) (embedded : tensor2 (list A)) :
  mask_zero layer = true ->
  split2 tokens = inr (first, second) ->
  exists m1 m2,
    compute_mask layer first = Some m1
    /\ compute_mask layer second = Some m2
    /\ TemporalSplit.compute_mask embedded (compute_mask layer tokens)
       = inr (Some (m1, m2)).
Proof.
  intros Hz Hsplit. unfold compute_mask. rewrite Hz. cbn [negb].
  exists (not_equal first 0), (not_equal second 0).
  split; [reflexivity|]. split; [reflexivity|].
  unfold TemporalSplit.compute_mask, split2 in *.
  assert (Hshape : shape (not_equal tokens 0) = shape tokens)
    by (apply shape_map; intro r; apply length_map).
  rewrite Hshape. destruct (shape tokens) as [[b c]|]; [|discriminate].
  destruct (Nat.even c); [|discriminate].
  injection Hsplit as Hfirst Hsecond. subst first second.
  unfold not_equal. rewrite !map_map.
  apply f_equal, f_equal, f_equal2; apply map_ext; intro r;
    [apply firstn_map|apply skipn_map].
Qed.

Lemma temporal_split_of_token_mask_witness :
  exists m1 m2,
    compute_mask {| input_dim := 10; output_dim := 32; mask_zero := true |}
      (map (firstn 3) recorded_padded_inputs) = Some m1
    /\ compute_mask {| input_dim := 10; output_dim := 32; mask_zero := true |}
         (map (skipn 3) recorded_padded_inputs) = Some m2
    /\ TemporalSplit.compute_mask (A := pyfloat) []
         (compute_mask {| input_dim := 10; output_dim := 32; mask_zero := true |}
            recorded_padded_inputs)
       = inr (Some (m1, m2)).
Proof.
  apply (temporal_split_of_token_mask (A := pyfloat)
           {| input_dim := 10; output_dim := 32; mask_zero := true |}
           recorded_padded_inputs); reflexivity.
Defined.

Lemma entry_map_rows {A B : Type} (f : list A -> list B) (x : tensor2 A)
  (i t : nat) :
  entry (map f x) i t =
    match nth_error x i with
    | Some row => nth_error (f row) t
    | None => None
    end.
Proof. unfold entry. rewrite nth_error_map. now destruct (nth_error x i). Qed.

Lemma entry_first_half {A : Type} (x : tensor2 A) (n i t : nat) :
  entry (map (firstn n) x) i t = if t <? n then entry x i t else None.
Proof.
  rewrite entry_map_rows. unfold entry.
  destruct (nth_error x i) as [row|]; [apply nth_error_firstn|].
  now destruct (t <? n).
Qed.

Lemma entry_second_half {A : Type} (x : tensor2 A) (n i t : nat) :
  entry (map (skipn n) x) i t = entry x i (n + t).
Proof.
  rewrite entry_map_rows. unfold entry.
  destruct (nth_error x i) as [row|]; [apply nth_error_skipn|reflexivity].
Qed.

Lemma entry_beyond {A : Type} (x : tensor2 A) (b c i t : nat) :
  shape x = Some (b, c) -> c <= t -> entry x i t = None.
Proof.
  intros Hs Ht. destruct (shape_rows _ _ _ Hs) as [_ Hrows]. unfold entry.
  destruct (nth_error x i) as [row|] eqn:Hi; [|reflexivity].
  apply nth_error_None. rewrite (Hrows row) by (eapply nth_error_In; eassumption).
  exact Ht.
Qed.

(** [call] and [compute_mask] of [TemporalSplit] cut at the same timestep:
    on an input and a mask of the same [(batch, timesteps)] shape with an
    even number of timesteps, position [t] of the first output and of the
    first mask come from position [t] of the input and of the mask, position
    [t] of the second ones from position [timesteps/2 + t]; the four
    results have nothing beyond [timesteps/2].  So every output position
    keeps the mask value of the input position it was taken from. *)
Theorem temporal_split_masks_align {A : Type} (inputs : tensor2 (list A))
  (mask : tensor2 bool) (b c : nat) :
  shape inputs = Some (b, c) -> shape mask = Some (b, c) ->
  Nat.even c = true ->
  exists o1 o2 m1 m2,
    TemporalSplit.call inputs = inr (o1, o2)
    /\ TemporalSplit.compute_mask inputs (Some mask) = inr (Some (m1, m2))
    /\ (forall i t, t < c / 2 ->
          entry o1 i t = entry inputs i t
          /\ entry m1 i t = entry mask i t
          /\ entry o2 i t = entry inputs i (c / 2 + t)
          /\ entry m2 i t = entry mask i (c / 2 + t))
    /\ (forall i t, c / 2 <= t ->
          entry o1 i t = None /\ entry m1 i t = None
          /\ entry o2 i t = None /\ entry m2 i t = None).
Proof.
  intros Hin Hmask He.
  exists (map (firstn (c / 2)) inputs), (map (skipn (c / 2)) inputs),
         (map (firstn (c / 2)) mask), (map (skipn (c / 2)) mask).
  unfold TemporalSplit.call, TemporalSplit.compute_mask.
  rewrite (split2_even _ _ _ Hin He), (split2_even _ _ _ Hmask He).
  split; [reflexivity|]. split; [reflexivity|].
  pose proof (half_of_even c He) as Hc.
  split; intros i t Ht; rewrite !entry_first_half, !entry_second_half.
  - apply Nat.ltb_lt in Ht. rewrite Ht. now repeat split.
  - assert (Hlt : (t <? c / 2) = false) by (apply Nat.ltb_ge; exact Ht).
    rewrite Hlt.
    rewrite (entry_beyond inputs b c) by (assumption || lia).
    rewrite (entry_beyond mask b c) by (assumption || lia).
    now repeat split.
Qed.

(** On the notebook's batch of three sequences of six tokens, embedded with
    one feature. *)
Lemma temporal_split_masks_align_witness :
  exists o1 o2 m1 m2,
    TemporalSplit.call (map (map (fun x => [x])) recorded_padded_inputs)
    = inr (o1, o2)
    /\ TemporalSplit.compute_mask (map (map (fun x => [x])) recorded_padded_inputs)
         (Some recorded_keras_mask)
       = inr (Some (m1, m2))
    /\ (forall i t, t < 6 / 2 ->
          entry o1 i t = entry (map (map (fun x => [x])) recorded_padded_inputs) i t
          /\ entry m1 i t = entry recorded_keras_mask i t
          /\ entry o2 i t
             = entry (map (map (fun x => [x])) recorded_padded_inputs) i (6 / 2 + t)
          /\ entry m2 i t = entry recorded_keras_mask i (6 / 2 + t))
    /\ (forall i t, 6 / 2 <= t ->
          entry o1 i t = None /\ entry m1 i t = None
          /\ entry o2 i t = None /\ entry m2 i t = None).
Proof.
  apply (temporal_split_masks_align
           (map (map (fun x => [x])) recorded_padded_inputs)
           recorded_keras_mask 3 6); reflexivity.
Defined.

(** ** Masks of padded batches *)

(** Padding and masking undo each other: when no token is 0, the mask of the
    post-padded batch is, for every sequence, [True] over the length of the
    sequence and [False] over the padding. *)
Theorem mask_of_padded_sequences (layer : CustomEmbedding)
  (sequences : list (list Z)) :
  mask_zero layer = true ->
  sequences <> [] ->
  Forall (Forall (fun token => token <> 0%Z)) sequences ->
  exists padded,
    pad_sequences sequences post 0 = Some padded
    /\ compute_mask layer padded =
         Some (map (fun s =>
                      repeat true (List.length s)
                      ++ repeat false
                           (list_max (map (@List.length Z) sequences)
                            - List.length s))
                   sequences).
Proof.
  intros Hz Hne Hnz.
  set (maxlen := list_max (map (@List.length Z) sequences)).
  exists (map (write_row post (repeat 0%Z maxlen)) sequences).
  split; [destruct sequences; [congruence|reflexivity]|].
  unfold compute_mask, not_equal. rewrite Hz. cbn [negb]. f_equal.
  rewrite map_map. rewrite Forall_forall in Hnz.
  apply map_ext_in. intros s Hin. rewrite write_row_post, map_app. f_equal.
  - specialize (Hnz s Hin). clear Hin.
    induction Hnz as [|x l Hx Hl IH]; [reflexivity|].
    cbn [map List.length repeat]. rewrite IH.
    now destruct (Z.eqb_spec x 0).
  - now rewrite map_repeat.
Qed.

Lemma mask_of_padded_sequences_witness :
  exists padded,
    pad_sequences raw_inputs post 0 = Some padded
    /\ compute_mask {| input_dim := 5000; output_dim := 16; mask_zero := true |}
         padded =
         Some (map (fun s =>
                      repeat true (List.length s)
                      ++ repeat false
                           (list_max (map (@List.length Z) raw_inputs)
                            - List.length s))
                   raw_inputs).
Proof.
  apply (mask_of_padded_sequences
           {| input_dim := 5000; output_dim := 16; mask_zero := true |}
           raw_inputs); [reflexivity|discriminate|].
  repeat constructor; discriminate.
Defined.

(** ** [CustomEmbedding.call] *)

Lemma build_length (self : CustomEmbedding) (initial : nat -> nat -> pyfloat) :
  List.length (CustomEmbeddingLayer.build self initial) = input_dim self.
Proof. unfold CustomEmbeddingLayer.build. now rewrite length_map, length_seq. Qed.

Lemma build_row (self : CustomEmbedding) (initial : nat -> nat -> pyfloat)
  (k : nat) :
  k < input_dim self ->
  nth k (CustomEmbeddingLayer.build self initial) []
  = map (initial k) (seq 0 (output_dim self)).
Proof.
  intro Hk. unfold CustomEmbeddingLayer.build.
  rewrite nth_indep with (d' := map (initial 0) (seq 0 (output_dim self)))
    by now rewrite length_map, length_seq.
  change (map (initial 0) (seq 0 (output_dim self)))
    with ((fun i => map (initial i) (seq 0 (output_dim self))) 0).
  rewrite map_nth, seq_nth by exact Hk. reflexivity.
Qed.

(** Once built, [CustomEmbedding.call] on tokens within [0, input_dim) gives
    every position the row of [self.embeddings] its token selects, a vector
    of [output_dim] values, and the output has an entry exactly where the
    input has one.  [call] does not look at the mask: a position that
    [compute_mask] marks [False] carries row 0 of the table. *)
Theorem embedding_call_gathers (self : CustomEmbedding)
  (initial : nat -> nat -> pyfloat) (inputs : tensor2 Z) :
  (forall i t x, entry inputs i t = Some x ->
                 (0 <= x < Z.of_nat (input_dim self))%Z) ->
  exists out,
    CustomEmbeddingLayer.call (CustomEmbeddingLayer.build self initial) inputs
    = inr out
    /\ (forall i t,
          entry out i t =
            option_map (fun x => map (initial (Z.to_nat x))
                                     (seq 0 (output_dim self)))
                       (entry inputs i t))
    /\ (forall mask i t,
          compute_mask self inputs = Some mask ->
          entry mask i t = Some false ->
          entry out i t = Some (map (initial 0) (seq 0 (output_dim self)))).
Proof.
  intro Hrange.
  set (embeddings := CustomEmbeddingLayer.build self initial).
  exists (map (map (fun x => nth (Z.to_nat x) embeddings [])) inputs).
  split; [|split].
  3: { intros mask i t Hmask Hfalse. unfold compute_mask in Hmask.
       destruct (negb (mask_zero self)); [discriminate|].
       injection Hmask as <-. unfold not_equal in Hfalse.
       rewrite entry_map in Hfalse. rewrite entry_map.
       destruct (entry inputs i t) as [x|] eqn:He; [|discriminate].
       cbn [option_map] in *. injection Hfalse as Hx.
       apply negb_false_iff, Z.eqb_eq in Hx. subst x.
       f_equal. apply (build_row self initial 0).
       specialize (Hrange i t 0%Z He). lia. }
  - unfold CustomEmbeddingLayer.call, CustomEmbeddingLayer.embedding_lookup.
    assert (Hall : forallb (forallb (fun x => (0 <=? x)%Z
                     && (x <? Z.of_nat (List.length embeddings))%Z)) inputs = true).
    { apply forallb_forall. intros row Hrow. apply forallb_forall. intros x Hx.
      apply In_nth_error in Hrow. destruct Hrow as [i Hi].
      apply In_nth_error in Hx. destruct Hx as [t Ht].
      assert (He : entry inputs i t = Some x) by (unfold entry; now rewrite Hi).
      specialize (Hrange i t x He). unfold embeddings. rewrite build_length.
      apply andb_true_intro. split; [apply Z.leb_le|apply Z.ltb_lt]; lia. }
    now rewrite Hall.
  - intros i t. rewrite entry_map.
    destruct (entry inputs i t) as [x|] eqn:He; [|reflexivity].
    cbn [option_map]. f_equal. apply build_row.
    specialize (Hrange i t x He). lia.
Qed.

(** The layer of the notebook, [CustomEmbedding(10, 32, mask_zero=True)], on
    a batch of tokens below 10. *)
Lemma embedding_call_gathers_witness :
  exists out,
    CustomEmbeddingLayer.call
      (CustomEmbeddingLayer.build
         {| input_dim := 10; output_dim := 32; mask_zero := true |}
         (fun i j => Finite (inject_Z (Z.of_nat (i + j)))))
      [[5; 4; 8; 0]; [7; 0; 1; 5]]%Z
    = inr out
    /\ (forall i t,
          entry out i t =
            option_map (fun x => map (fun j => Finite (inject_Z (Z.of_nat (Z.to_nat x + j))))
                                     (seq 0 32))
                       (entry [[5; 4; 8; 0]; [7; 0; 1; 5]]%Z i t))
    /\ (forall mask i t,
          compute_mask {| input_dim := 10; output_dim := 32; mask_zero := true |}
            [[5; 4; 8; 0]; [7; 0; 1; 5]]%Z = Some mask ->
          entry mask i t = Some false ->
          entry out i t
          = Some (map (fun j => Finite (inject_Z (Z.of_nat (0 + j)))) (seq 0 32))).
Proof.
  apply (embedding_call_gathers
           {| input_dim := 10; output_dim := 32; mask_zero := true |}
           (fun i j => Finite (inject_Z (Z.of_nat (i + j))))
           [[5; 4; 8; 0]; [7; 0; 1; 5]]%Z).
  intros i t x He.
  destruct i as [|[|i]]; [| |destruct i; discriminate];
    (destruct t as [|[|[|[|t]]]]; [| | | |destruct t; discriminate]);
    inversion He; cbn; lia.
Defined.

(** A token outside the table is refused by the lookup. *)
Example embedding_call_out_of_range :
  CustomEmbeddingLayer.call
    (CustomEmbeddingLayer.build
       {| input_dim := 10; output_dim := 32; mask_zero := true |}
       (fun _ _ => Finite 0%Q))
    [[5; 10]]%Z
  = inl (FrameworkError "tf.nn.embedding_lookup").
Proof. reflexivity. Qed.

(** ** [EarlyStoppingAtMinLoss] over the epoch ends of a run *)

Section EarlyStoppingRuns.
Context {Weights : Type}.
Import EarlyStoppingAtMinLoss.

Lemma epoch_ends_app (s : self Weights) (w : World Weights)
  (xs ys : list (epoch_record Weights)) :
  epoch_ends s w (xs ++ ys) =
    match epoch_ends s w xs with
    | inl e => inl e
    | inr (s', w') => epoch_ends s' w' ys
    end.
Proof.
  revert s w. induction xs as [|x xs IH]; intros s w; [reflexivity|].
  cbn [app epoch_ends].
  destruct (on_epoch_end s (ep_index x) (ep_logs x)
              (with_weights (ep_weights x) w)) as [e|[s1 w1]];
    [reflexivity|apply IH].
Qed.

Lemma epoch_ends_improving (xs : list (epoch_record Weights))
  (x : epoch_record Weights) (s : self Weights) (w : World Weights) :
  improving_from (best s) (xs ++ [x]) ->
  epoch_ends s w (xs ++ [x]) =
    inr ({| patience := patience s;
            best_weights := Some (ep_weights x);
            wait := 0;
            stopped_epoch := stopped_epoch s;
            best := ep_loss x |},
         with_weights (ep_weights x) w).
Proof.
  revert s w. induction xs as [|y xs IH]; intros s w Himp.
  - cbn in Himp. destruct Himp as [Hless _]. cbn [app epoch_ends].
    pose proof (on_epoch_end_cases s x w) as Hc. cbv zeta in Hc.
    now rewrite Hc, Hless.
  - cbn [app improving_from] in Himp. destruct Himp as [Hless Hrest].
    cbn [app epoch_ends].
    pose proof (on_epoch_end_cases s y w) as Hc. cbv zeta in Hc.
    rewrite Hc, Hless. rewrite IH by exact Hrest. reflexivity.
Qed.

(** While every epoch ends with a loss strictly below the one before (the
    first below [np.Inf]), [EarlyStoppingAtMinLoss] never asks to stop and
    prints nothing, whatever its patience: after the last epoch it holds that
    epoch's loss and weights with the counter at 0, the model is as training
    left it, and [on_train_end] has nothing to report. *)
Theorem early_stopping_improving_losses (instance : self Weights)
  (logs logs' : Logs) (xs : list (epoch_record Weights))
  (x : epoch_record Weights) (w : World Weights) :
  improving_from np_Inf (xs ++ [x]) ->
  let s' := {| patience := patience instance;
               best_weights := Some (ep_weights x);
               wait := 0;
               stopped_epoch := 0;
               best := ep_loss x |} in
  let w' := with_weights (ep_weights x) w in
  epoch_ends (on_train_begin instance logs) w (xs ++ [x]) = inr (s', w')
  /\ handle (RunEnd Train logs') (s', w') = inr (s', w').
Proof.
  intros Himp s' w'. split; [|reflexivity].
  now rewrite epoch_ends_improving.
Qed.

Lemma epoch_ends_with_recorded_weights (xs : list (epoch_record Weights))
  (s : self Weights) (w : World Weights) :
  best_weights s <> None -> exists s' w', epoch_ends s w xs = inr (s', w').
Proof.
  revert s w. induction xs as [|x xs IH]; intros s w Hsome.
  - now exists s, w.
  - cbn [epoch_ends].
    pose proof (on_epoch_end_cases s x w) as Hc. cbv zeta in Hc. rewrite Hc.
    destruct (np_less (ep_loss x) (best s)).
    + apply IH. cbn. discriminate.
    + destruct (best_weights s) as [ws|] eqn:Hb; [|contradiction].
      destruct (wait s + 1 >=? patience s)%Z; apply IH; cbn; discriminate.
Qed.

Lemma epoch_ends_without_minimum (xs : list (epoch_record Weights))
  (s : self Weights) (w : World Weights) (e : error) :
  best_weights s = None -> best s = np_Inf ->
  epoch_ends s w xs = inl e <->
  e = FrameworkError "model.set_weights(None)"
  /\ 1 <= leading_without_minimum xs
  /\ (patience s <= wait s + Z.of_nat (leading_without_minimum xs))%Z.
Proof.
  revert s w. induction xs as [|x xs IH]; intros s w Hnone Hbest.
  - cbn. split; [discriminate|]. intros [_ [H _]]. lia.
  - cbn [epoch_ends leading_without_minimum].
    pose proof (on_epoch_end_cases s x w) as Hc. cbv zeta in Hc.
    rewrite Hc, Hbest. clear Hc.
    destruct (np_less (ep_loss x) np_Inf) eqn:Hless.
    + match goal with
      | |- epoch_ends ?s1 ?w1 xs = _ <-> _ =>
          destruct (epoch_ends_with_recorded_weights xs s1 w1) as [s' [w' H]];
            [cbn; discriminate|rewrite H]
      end.
      split; [discriminate|]. intros [_ [H1 _]]. lia.
    + destruct (wait s + 1 >=? patience s)%Z eqn:Hge.
      * rewrite Hnone. apply Z.geb_le in Hge. split.
        -- intro H. inversion H. split; [reflexivity|]. split; lia.
        -- now intros [-> _].
      * rewrite Z.geb_leb in Hge. apply Z.leb_gt in Hge.
        rewrite IH by (cbn; first [assumption|reflexivity]). cbn [patience wait].
        split; intros [He [H1 H2]]; (split; [exact He|]); split; lia.
Qed.

(** A run of a fresh [EarlyStoppingAtMinLoss(patience=p)] fails exactly when
    it begins with [n >= 1] epochs whose loss is not below [np.Inf] (infinite
    or not a number) and [p <= n]: the counter then reaches the patience
    before any weights were recorded, and [set_weights(None)] is refused.
    Once one epoch has given a loss below [np.Inf], no epoch end fails. *)
Theorem early_stopping_fails_without_minimum (p : Z) (logs : Logs)
  (w : World Weights) (xs : list (epoch_record Weights)) (e : error) :
  epoch_ends (on_train_begin (init p) logs) w xs = inl e <->
  e = FrameworkError "model.set_weights(None)"
  /\ 1 <= leading_without_minimum xs
  /\ (p <= Z.of_nat (leading_without_minimum xs))%Z.
Proof.
  rewrite epoch_ends_without_minimum by reflexivity. reflexivity.
Qed.

Lemma epoch_ends_waiting (xs : list (epoch_record Weights))
  (s : self Weights) (ws : Weights) (w : World Weights) :
  best_weights s = Some ws ->
  Forall (fun y => np_less (ep_loss y) (best s) = false) xs ->
  (xs <> [] -> (wait s + Z.of_nat (List.length xs) < patience s)%Z) ->
  exists w1,
    epoch_ends s w xs =
      inr ({| patience := patience s;
              best_weights := Some ws;
              wait := wait s + Z.of_nat (List.length xs);
              stopped_epoch := stopped_epoch s;
              best := best s |}, w1)
    /\ stop_training (model w1) = stop_training (model w)
    /\ optimizer (model w1) = optimizer (model w)
    /\ printed w1 = printed w.
Proof.
  revert s w. induction xs as [|x xs IH]; intros s w Hsome Hall Hlen.
  - exists w. split; [|now split]. cbn. destruct s. cbn in *. subst.
    now rewrite Z.add_0_r.
  - inversion Hall as [|? ? Hless Hrest]; subst.
    specialize (Hlen ltac:(discriminate)). cbn [List.length] in Hlen.
    cbn [epoch_ends].
    pose proof (on_epoch_end_cases s x w) as Hc. cbv zeta in Hc.
    rewrite Hc, Hless. clear Hc.
    assert (Hge : (wait s + 1 >=? patience s)%Z = false)
      by (rewrite Z.geb_leb; apply Z.leb_gt; lia).
    rewrite Hge.
    match goal with
    | |- exists _, epoch_ends ?s1 ?w1 xs = _ /\ _ =>
        destruct (IH s1 w1) as [w2 [Heq [Hstop [Hopt Hprinted]]]];
          [exact Hsome|exact Hrest|cbn; lia|]
    end.
    exists w2. split; [|now split]. rewrite Heq.
    cbn [patience wait best stopped_epoch List.length].
    replace (wait s + 1 + Z.of_nat (List.length xs))%Z
      with (wait s + Z.of_nat (S (List.length xs)))%Z by lia.
    reflexivity.
Qed.

(** After a minimum (counter at 0, weights [ws] recorded), the callback
    counts the epochs that end without a strictly lower loss.  During the
    first [max(1, patience) - 1] of them it touches neither the stop flag
    nor the output; at the end of the next one it sets
    [model.stop_training], prints the restoring message and puts [ws] back
    into the model.  So patience 0 and patience 1 stop alike, at the first
    such epoch.  [on_train_end] then reports the stop, unless it happened at
    the end of epoch 0. *)
Theorem early_stopping_waits_patience (s : self Weights) (ws : Weights)
  (xs : list (epoch_record Weights)) (x : epoch_record Weights)
  (logs : Logs) (w : World Weights) :
  wait s = 0%Z ->
  best_weights s = Some ws ->
  Forall (fun y => np_less (ep_loss y) (best s) = false) (xs ++ [x]) ->
  (Z.of_nat (List.length xs) + 1 = Z.max 1 (patience s))%Z ->
  (forall before after, xs = before ++ after ->
     exists s1 w1,
       epoch_ends s w before = inr (s1, w1)
       /\ stop_training (model w1) = stop_training (model w)
       /\ printed w1 = printed w)
  /\ let s' := {| patience := patience s;
                  best_weights := Some ws;
                  wait := Z.of_nat (List.length xs) + 1;
                  stopped_epoch := ep_index x;
                  best := best s |} in
     let w' := with_weights ws
                 (print "Restoring model weights from the end of the best epoch."
                    (set_stop_training true w)) in
     epoch_ends s w (xs ++ [x]) = inr (s', w')
     /\ on_train_end s' logs w' =
          if 0 <? ep_index x
          then print ("Epoch " ++ format_d 5 (ep_index x + 1)
                      ++ ": early stopping")%string w'
          else w'.
Proof.
  intros Hwait Hsome Hall Hpat.
  apply Forall_app in Hall. destruct Hall as [Hxs Hx].
  inversion Hx as [|? ? Hlast _]; subst. clear Hx.
  split.
  - intros before after ->.
    apply Forall_app in Hxs. destruct Hxs as [Hbefore _].
    rewrite length_app in Hpat.
    destruct (epoch_ends_waiting before s ws w Hsome Hbefore)
      as [w1 [Heq [Hstop [_ Hprinted]]]].
    { intro Hne. destruct before; [contradiction|]. cbn [List.length] in *. lia. }
    rewrite Heq. eexists. exists w1. split; [reflexivity|]. now split.
  - intros s' w'. split; [|reflexivity].
    rewrite epoch_ends_app.
    destruct (epoch_ends_waiting xs s ws w Hsome Hxs)
      as [w1 [Heq [Hstop [Hopt Hprinted]]]].
    { intro Hne. destruct xs; [contradiction|]. cbn [List.length] in *. lia. }
    rewrite Heq. cbn [epoch_ends].
    match goal with
    | |- match on_epoch_end ?s1 _ _ _ with _ => _ end = _ =>
        pose proof (on_epoch_end_cases s1 x w1) as Hc
    end.
    cbv zeta in Hc. rewrite Hc. clear Hc. cbn [best wait patience best_weights].
    rewrite Hlast.
    assert (Hge : (wait s + Z.of_nat (List.length xs) + 1 >=? patience s)%Z = true)
      by (apply Z.geb_le; lia).
    rewrite Hge. unfold s', w', with_weights, print, set_stop_training.
    cbn [model printed stop_training weights optimizer].
    rewrite Hopt, Hprinted, Hwait. reflexivity.
Qed.

End EarlyStoppingRuns.

(** The first three epochs of the recorded run (losses 171.63, 5.81, 4.85)
    improve each time. *)
Lemma early_stopping_improving_losses_witness :
  EarlyStoppingAtMinLoss.epoch_ends
    (EarlyStoppingAtMinLoss.on_train_begin (EarlyStoppingAtMinLoss.init 0) [])
    get_model
    (firstn 2 early_stopping_epochs
     ++ [ {| EarlyStoppingAtMinLoss.ep_index := 2;
             EarlyStoppingAtMinLoss.ep_loss := Finite 4.85%Q;
             EarlyStoppingAtMinLoss.ep_metrics :=
               [("mean_absolute_error", Finite 1.72%Q)];
             EarlyStoppingAtMinLoss.ep_weights := (2, 4) |} ])
  = inr (at_best_epoch, with_weights (2, 4) get_model)
  /\ EarlyStoppingAtMinLoss.handle (RunEnd Train [])
       (at_best_epoch, with_weights (2, 4) get_model)
     = inr (at_best_epoch, with_weights (2, 4) get_model).
Proof.
  apply (early_stopping_improving_losses
           (EarlyStoppingAtMinLoss.init 0) [] []
           (firstn 2 early_stopping_epochs)
           {| EarlyStoppingAtMinLoss.ep_index := 2;
              EarlyStoppingAtMinLoss.ep_loss := Finite 4.85%Q;
              EarlyStoppingAtMinLoss.ep_metrics :=
                [("mean_absolute_error", Finite 1.72%Q)];
              EarlyStoppingAtMinLoss.ep_weights := (2, 4) |}
           get_model).
  vm_compute. repeat split.
Defined.

(** A loss that is not a number at the end of the first epoch: with the
    default patience the run fails, with patience 2 it goes on. *)
Example early_stopping_nan_loss :
  let diverged : EarlyStoppingAtMinLoss.epoch_record label :=
    {| EarlyStoppingAtMinLoss.ep_index := 0;
       EarlyStoppingAtMinLoss.ep_loss := NaN;
       EarlyStoppingAtMinLoss.ep_metrics := [];
       EarlyStoppingAtMinLoss.ep_weights := (0, 4) |} in
  EarlyStoppingAtMinLoss.epoch_ends
    (EarlyStoppingAtMinLoss.on_train_begin (EarlyStoppingAtMinLoss.init 0) [])
    get_model [diverged]
  = inl (FrameworkError "model.set_weights(None)")
  /\ raised_by_notebook
       (EarlyStoppingAtMinLoss.epoch_ends
          (EarlyStoppingAtMinLoss.on_train_begin (EarlyStoppingAtMinLoss.init 2) [])
          get_model [diverged]) = false
  /\ EarlyStoppingAtMinLoss.epoch_ends
       (EarlyStoppingAtMinLoss.on_train_begin (EarlyStoppingAtMinLoss.init 2) [])
       get_model [diverged]
     = inr ({| EarlyStoppingAtMinLoss.patience := 2;
               EarlyStoppingAtMinLoss.best_weights := None;
               EarlyStoppingAtMinLoss.wait := 1;
               EarlyStoppingAtMinLoss.stopped_epoch := 0;
               EarlyStoppingAtMinLoss.best := np_Inf |},
            with_weights (0, 4) get_model).
Proof. repeat split. Qed.

(** Patience 2 after the minimum 4.85 of the recorded run: the end of epoch
    3 (loss 12.65) is waited out, the end of epoch 4 stops. *)
Lemma early_stopping_waits_patience_witness :
  let s := {| EarlyStoppingAtMinLoss.patience := 2;
              EarlyStoppingAtMinLoss.best_weights := Some (2, 4);
              EarlyStoppingAtMinLoss.wait := 0;
              EarlyStoppingAtMinLoss.stopped_epoch := 0;
              EarlyStoppingAtMinLoss.best := Finite 4.85%Q |} in
  let later e loss :=
    {| EarlyStoppingAtMinLoss.ep_index := e;
       EarlyStoppingAtMinLoss.ep_loss := Finite loss;
       EarlyStoppingAtMinLoss.ep_metrics := [];
       EarlyStoppingAtMinLoss.ep_weights := (e, 4) |} in
  EarlyStoppingAtMinLoss.epoch_ends s get_model
    ([later 3 12.65%Q] ++ [later 4 4.85%Q])
  = inr ({| EarlyStoppingAtMinLoss.patience := 2;
            EarlyStoppingAtMinLoss.best_weights := Some (2, 4);
            EarlyStoppingAtMinLoss.wait := 2;
            EarlyStoppingAtMinLoss.stopped_epoch := 4;
            EarlyStoppingAtMinLoss.best := Finite 4.85%Q |},
         with_weights (2, 4)
           (print "Restoring model weights from the end of the best epoch."
              (set_stop_training true get_model)))
  /\ EarlyStoppingAtMinLoss.epoch_ends s get_model [later 3 12.65%Q]
     = inr ({| EarlyStoppingAtMinLoss.patience := 2;
               EarlyStoppingAtMinLoss.best_weights := Some (2, 4);
               EarlyStoppingAtMinLoss.wait := 1;
               EarlyStoppingAtMinLoss.stopped_epoch := 0;
               EarlyStoppingAtMinLoss.best := Finite 4.85%Q |},
            with_weights (3, 4) get_model).
Proof.
  intros s later.
  split; [|reflexivity].
  apply (early_stopping_waits_patience s (2, 4)
           [later 3 12.65%Q] (later 4 4.85%Q) [] get_model);
    [reflexivity|reflexivity| |reflexivity].
  repeat constructor.
Defined.

(** ** [LossAndErrorPrintingCallback] *)

(** A method of [LossAndErrorPrintingCallback] fails exactly when [logs]
    lacks one of the metrics it reads, and then with the [KeyError] of the
    lookup; otherwise it leaves the model alone and adds one line to the
    output, or none when the method is not overridden. *)
Theorem loss_printing_reads_its_keys {Weights : Type} (c : call)
  (w : World Weights) :
  match LossAndErrorPrintingCallback.handle c w with
  | inl e =>
      e = FrameworkError "logs[key]"
      /\ exists k, In k (keys_read c) /\ get (snapshot c) k = None
  | inr w' =>
      (forall k, In k (keys_read c) -> get (snapshot c) k <> None)
      /\ model w' = model w
      /\ exists lines,
           printed w' = printed w ++ lines
           /\ List.length lines = Nat.min 1 (List.length (keys_read c))
  end.
Proof.
  destruct c as [[]|[]| | |[]|[]];
    cbn [LossAndErrorPrintingCallback.handle keys_read snapshot];
    try (split; [intros k []|]; split; [reflexivity|]; exists [];
         split; [now rewrite app_nil_r|reflexivity]).
  - unfold LossAndErrorPrintingCallback.on_epoch_end,
      LossAndErrorPrintingCallback.item.
    destruct (get logs "loss") eqn:Hloss.
    + destruct (get logs "mean_absolute_error") eqn:Hmae.
      * split; [|split; [reflexivity|eexists; split; reflexivity]].
        intros k [<-|[<-|[]]]; congruence.
      * split; [reflexivity|]. exists "mean_absolute_error". split; [|exact Hmae].
        right. now left.
    + split; [reflexivity|]. exists "loss". split; [now left|exact Hloss].
  - unfold LossAndErrorPrintingCallback.on_train_batch_end,
      LossAndErrorPrintingCallback.item.
    destruct (get logs "loss") eqn:Hloss.
    + split; [|split; [reflexivity|eexists; split; reflexivity]].
      intros k [<-|[]]; congruence.
    + split; [reflexivity|]. exists "loss". split; [now left|exact Hloss].
  - unfold LossAndErrorPrintingCallback.on_test_batch_end,
      LossAndErrorPrintingCallback.item.
    destruct (get logs "loss") eqn:Hloss.
    + split; [|split; [reflexivity|eexists; split; reflexivity]].
      intros k [<-|[]]; congruence.
    + split; [reflexivity|]. exists "loss". split; [now left|exact Hloss].
Qed.

(** A model compiled without the [mean_absolute_error] metric: the batch
    methods print, [on_epoch_end] fails on the missing key. *)
Example loss_printing_without_metric :
  LossAndErrorPrintingCallback.handle
    (BatchEnd Train 0 [("loss", Finite 30.77%Q)]) get_model
  = inr (print "Up to batch 0, the average loss is   30.77." get_model)
  /\ LossAndErrorPrintingCallback.handle
       (EpochEnd 0 [("loss", Finite 30.77%Q)]) get_model
     = inl (FrameworkError "logs[key]").
Proof. split; reflexivity. Qed.

(** ** [CustomLearningRateScheduler] with [lr_schedule] *)



Section Scheduler.
Context {Weights : Type}.




End Scheduler.


(** ** [CustomCallback]: what a printed line tells *)

Lemma append_same_prefix (p a b : string) :
  (p ++ a)%string = (p ++ b)%string -> a = b.
Proof.
  induction p as [|c p IH]; cbn; intro H; [exact H|].
  injection H as H. now apply IH.
Qed.

Lemma string_of_uint_delimited (d d' : Decimal.uint) (s s' : string) :
  no_digit_ahead s -> no_digit_ahead s' ->
  (NilEmpty.string_of_uint d ++ s)%string
  = (NilEmpty.string_of_uint d' ++ s')%string ->
  d = d'.
Proof.
  intros Hs Hs'. revert d'.
  induction d as [|d IH|d IH|d IH|d IH|d IH|d IH|d IH|d IH|d IH|d IH];
    intros [|d'|d'|d'|d'|d'|d'|d'|d'|d'|d']; cbn; intro H;
    try reflexivity;
    try (injection H as H; f_equal; now apply IH);
    try discriminate H;
    exfalso;
    first [ rewrite H in Hs; destruct Hs as [Hs|Hs]; vm_compute in Hs;
            discriminate Hs
          | rewrite <- H in Hs'; destruct Hs' as [Hs'|Hs']; vm_compute in Hs';
            discriminate Hs' ].
Qed.

Lemma str_nat_delimited (n m : nat) (s s' : string) :
  no_digit_ahead s -> no_digit_ahead s' ->
  (str_nat n ++ s)%string = (str_nat m ++ s')%string -> n = m.
Proof.
  intros Hs Hs' H. apply DecimalNat.Unsigned.to_uint_inj.
  exact (string_of_uint_delimited _ _ _ _ Hs Hs' H).
Qed.

(** The line [CustomCallback] prints tells which method was called and with
    which epoch or batch number: two calls that print the same line are
    calls of the same method with the same number. *)
Theorem custom_callback_line_identifies_call (c1 c2 : call) :
  CustomCallback_line c1 = CustomCallback_line c2 ->
  method c1 = method c2 /\ index c1 = index c2.
Proof.
  intro H.
  destruct c1 as [[]|[]| | |[]|[]], c2 as [[]|[]| | |[]|[]];
    cbn [method index]; unfold CustomCallback_line in H;
    first
      [ split; reflexivity
      | apply append_same_prefix in H; apply str_nat_delimited in H;
        [ subst; split; reflexivity
        | cbn; first [left; reflexivity|right; reflexivity]
        | cbn; first [left; reflexivity|right; reflexivity] ]
      | exfalso; cbn [String.append] in H; discriminate H ].
Qed.

Lemma custom_callback_line_identifies_call_witness :
  method (EpochEnd 3 [("loss", Finite 1%Q)])
  = method (EpochEnd 3 [("loss", Finite 2%Q)])
  /\ index (EpochEnd 3 [("loss", Finite 1%Q)])
     = index (EpochEnd 3 [("loss", Finite 2%Q)]).
Proof.
  apply (custom_callback_line_identifies_call
           (EpochEnd 3 [("loss", Finite 1%Q)])
           (EpochEnd 3 [("loss", Finite 2%Q)])).
  reflexivity.
Defined.

(** The line does not tell the metrics apart from their names: keys may
    themselves hold the separator. *)
Example custom_callback_line_keys_ambiguous :
  CustomCallback_line (RunEnd Test [("a', 'b", Finite 0%Q)])
  = CustomCallback_line (RunEnd Test [("a", Finite 0%Q); ("b", Finite 0%Q)]).
Proof. reflexivity. Qed.
